(** * openmmtools.openmm_torch.repex: atom selection, constraint validation,
      mixed-system construction and replica-exchange sampler set-up.

    A shallow embedding of [src/openmmtools/openmm_torch/repex.py].

    - Python integers are [Z]; strings are [string]; keyword dictionaries are
      [gmap string value]; Python sets of integers are [gset Z].
    - A Python call either returns or raises: [result A].
    - Code that talks to the outside (the file system, [print], [logging] and
      the OpenMM / openmm-ml / openmmtools objects) runs in a state-and-error
      monad over a [world]: the set of regular files on disk and the trace of
      external calls made so far, oldest first. *)

From stdpp Require Import base decidable option list sorting strings gmap.
From Stdlib Require Import ZArith Lia.

Local Open Scope string_scope.
Local Open Scope list_scope.
Local Open Scope Z_scope.

(** ** Python values and exceptions *)

(** Values found in the configuration dictionaries and handed through to the
    external libraries.  [VObj] stands for an object of an external library
    (a [unit.Quantity], an [openmm.System], a positions array, a class, ...):
    the code under study only passes such objects along. *)
Inductive value : Type :=
  | VNone
  | VBool (b : bool)
  | VInt (z : Z)
  | VStr (s : string)
  | VObj (id : positive).

#[global] Instance value_eq_dec : EqDecision value.
Proof. solve_decision. Defined.

(** Keyword dictionaries ([Dict], [**kwargs]). *)
Abbreviation kwargs := (gmap string value).

(** What an [assert] of the module complains about. *)
Inductive assertion : Type :=
  | ResidueCount (nnpify_id : option string) (found : nat)
      (* "did not find exactly 1 residue with the name ..; found .." *)
  | NotAscending (atoms : list Z).
      (* "atom indices (..) are not in ascending order" *)

Inductive exn : Type :=
  | AssertionError (a : assertion)
  | ValueError (msg : string)
  | Exception (set_intersect : gset Z)
      (* "the intersection of system constraints and the specified atom set
          is not empty: .." *)
  | KeyError (key : string)
  | TypeError (msg : string)
  | NameError (name : string)
  | ExternalError (msg : string).   (* raised inside an external library *)

Inductive result (A : Type) : Type :=
  | Ok (a : A)
  | Raise (e : exn).
Arguments Ok {A} a.
Arguments Raise {A} e.

Definition raises {A} (r : result A) : Prop := ∃ e, r = Raise e.
Definition returns {A} (r : result A) : Prop := ∃ a, r = Ok a.

(** ** OpenMM data read by the module *)

(** [openmm.app.Topology]: chains of residues of atoms.  Only what the module
    reads is kept: [residue.name], [residue.atoms()], [atom.index]. *)
Record Atom := { atom_index : Z }.
Record Residue := { res_name : string; res_atoms : list Atom }.
Record Chain := { chain_residues : list Residue }.
Record Topology := { top_chains : list Chain }.

(** [topology.residues()]: the residues of every chain, in order. *)
Definition residues (topology : Topology) : list Residue :=
  mjoin (chain_residues <$> top_chains topology).

(** [openmm.System]: only the rigid-bond constraints are read. *)
Record Constraint := { p1 : Z; p2 : Z; distance : value }.
Record System := { sys_id : positive; sys_constraints : list Constraint }.

Definition getNumConstraints (system : System) : nat :=
  length (sys_constraints system).
Definition getConstraintParameters (system : System) (idx : nat)
  : option Constraint :=
  sys_constraints system !! idx.

(** ** Python helpers *)

(** [str(x)] for an optional string, as an f-string renders it. *)
Definition py_str (o : option string) : string := default "None" o.

(** [sorted(l)] on integers. *)
Definition sorted (l : list Z) : list Z := merge_sort Z.le l.

(** Non-strictly ascending. *)
Definition ascending (l : list Z) : Prop := Sorted Z.le l.

(** [for residue in list(topology.residues()): if residue.name == nnpify_id: break]
    and the value [residue] is bound to afterwards: the first residue with the
    name when there is one, else the last residue visited; unbound ([None]
    here) when the loop body never ran. *)
Fixpoint for_residue_break (rs : list Residue) (nnpify_id : option string)
    (residue : option Residue) : option Residue :=
  match rs with
  | [] => residue
  | r :: rs' =>
      if decide (Some (res_name r) = nnpify_id) then Some r
      else for_residue_break rs' nnpify_id (Some r)
  end.

(** ** Atom selection and constraint validation *)

Section AtomSelection.

(** [mdtraj.Topology.from_openmm(topology).select(query)]: the external
    selection engine, which returns atom indices or raises. *)
Variable mdtraj_select : Topology → string → result (list Z).

Definition get_atoms_from_resname (topology : Topology)
    (nnpify_id : option string) (nnpify_type : string) : result (list Z) :=
  if decide (nnpify_type = "chain") then
    mdtraj_select topology ("chainid == " +:+ py_str nnpify_id)
  else if decide (nnpify_type = "resname") then
    let all_resnames :=
      res_name <$>
        filter (λ res, Some (res_name res) = nnpify_id) (residues topology) in
    if decide (length all_resnames = 1%nat) then
      match for_residue_break (residues topology) nnpify_id None with
      | None => Raise (NameError "residue")
      | Some residue =>
          let atoms := atom_index <$> res_atoms residue in
          if decide (sorted atoms = atoms) then Ok atoms
          else Raise (AssertionError (NotAscending atoms))
      end
    else Raise (AssertionError (ResidueCount nnpify_id (length all_resnames)))
  else Raise (ValueError "Either chain or resname must be set").

End AtomSelection.

(** The loop of [assert_no_residue_constraints]: both end points of the
    constraints [idx], for [idx] in [range(system.getNumConstraints())]. *)
Definition append_constraint (system : System) (all_constraints : list Z)
    (idx : nat) : list Z :=
  match getConstraintParameters system idx with
  | Some c => all_constraints ++ [p1 c; p2 c]
  | None => all_constraints
  end.

Definition collect_constraints (system : System) : list Z :=
  foldl (append_constraint system) [] (seq 0 (getNumConstraints system)).

Definition assert_no_residue_constraints (system : System) (atoms : list Z)
  : result unit :=
  let atom_set : gset Z := list_to_set atoms in
  let all_constraints := collect_constraints system in
  let set_intersect : gset Z := list_to_set all_constraints ∩ atom_set in
  if decide (set_intersect = ∅) then Ok tt
  else Raise (Exception set_intersect).

(** ** The outside world *)

(** Objects handed back by the external libraries, described by the call that
    made them. *)
Record Platform := { minimum_precision : string }.
Record ContextCache :=
  { capacity : value; time_to_live : value; platform : Platform }.
Record MCMCMove := { move_class : value; move_kwargs : kwargs }.
Record MLPotential := { potential_name : option string }.

(** Keyword arguments of [createMixedSystem] as the module passes them. *)
Record createMixedSystem_args := {
  cms_topology : Topology;
  cms_system : System;
  cms_atoms : list Z;
  cms_implementation : string;
  cms_interpolate : bool;
  cms_kwargs : kwargs
}.

(** Keyword arguments of [setup] and [setup_decouple]. *)
Record setup_args := {
  n_states : value;
  mixed_system_arg : value;
  init_positions : value;
  temperature : value;
  storage_kwargs : kwargs;
  setup_equilibration_intervals : value;
  equilibration_protocol : value;
  steps_per_setup_equilibration_interval : value;
  setup_kwargs : kwargs
}.

Inductive setup_kind := Setup | SetupDecouple.

#[global] Instance setup_kind_eq_dec : EqDecision setup_kind.
Proof. solve_decision. Defined.

(** Where a sampler object comes from. *)
Inductive sampler_origin :=
  | FromStorage (storage : string)
      (* NNPRepexSampler.from_storage(storage) *)
  | Constructed (mcmc_moves : MCMCMove) (kw : kwargs).
      (* NNPRepexSampler(mcmc_moves=mcmc_moves, **kw) *)

Record NNPRepexSampler := {
  origin : sampler_origin;
  energy_context_cache : option ContextCache;
  sampler_context_cache : option ContextCache;
  setup_call : option (setup_kind * setup_args)
}.

(** External calls, as they appear in the trace. *)
Inductive event :=
  | EvPrint (atom_indices : list Z)
  | EvLoggingInfo (msg : string)
  | EvMLPotential (name : option string)
  | EvCreateMixedSystem (a : createMixedSystem_args)
  | EvGetFastestPlatform (minimum_precision : string)
  | EvContextCache (c : ContextCache)
  | EvMCMCMove (m : MCMCMove)
  | EvRemove (path : string)
  | EvFromStorage (storage : string)
  | EvNNPRepexSampler (mcmc_moves : MCMCMove) (kw : kwargs)
  | EvSetup (a : setup_args)
  | EvSetupDecouple (a : setup_args).

Record world := { files : gset string; trace : list event }.

(** State and exceptions.  The world a raising computation leaves behind is
    kept: what was done before the exception stays done. *)
Definition M (A : Type) : Type := world → result A * world.

#[global] Instance M_ret : MRet M := λ A a w, (Ok a, w).
#[global] Instance M_bind : MBind M := λ A B k m w,
  match m w with
  | (Ok a, w') => k a w'
  | (Raise e, w') => (Raise e, w')
  end.

Definition throw {A} (e : exn) : M A := λ w, (Raise e, w).
Definition lift {A} (r : result A) : M A := λ w, (r, w).
Definition emit (e : event) : M unit :=
  λ w, (Ok tt, {| files := files w; trace := trace w ++ [e] |}).

(** External calls are taken to return; an exception raised inside one would
    propagate unchanged through every caller below. *)
Definition print_atoms (atoms : list Z) : M unit := emit (EvPrint atoms).
Definition logging_info (msg : string) : M unit := emit (EvLoggingInfo msg).

Definition get_fastest_platform (minimum_precision : string) : M Platform :=
  emit (EvGetFastestPlatform minimum_precision);;
  mret {| minimum_precision := minimum_precision |}.

Definition ContextCache_new (capacity time_to_live : value) (p : Platform)
  : M ContextCache :=
  let c := {| capacity := capacity; time_to_live := time_to_live;
              platform := p |} in
  emit (EvContextCache c);; mret c.

Definition MLPotential_new (name : option string) : M MLPotential :=
  emit (EvMLPotential name);; mret {| potential_name := name |}.

(** [os.path.isfile].  The disk of the model knows files by their name, so
    the model covers storage paths given as [str]; what is stated below about
    the storage file is stated for such a path.  Any other value takes the
    [TypeError] branch, which is what [os.stat(None)] does; descriptors, bytes
    and path objects are not represented. *)
Definition os_path_isfile (path : value) : M bool :=
  match path with
  | VStr p => λ w, (Ok (bool_decide (p ∈ files w)), w)
  | _ => throw (TypeError "stat: path should be string")
  end.

(** [os.remove]: the file is gone afterwards. *)
Definition os_remove (path : value) : M unit :=
  match path with
  | VStr p => λ w,
      if decide (p ∈ files w) then
        (Ok tt, {| files := files w ∖ {[p]}; trace := trace w ++ [EvRemove p] |})
      else (Raise (ExternalError "FileNotFoundError"), w)
  | _ => throw (TypeError "remove: path should be string")
  end.

(** [d[key]] *)
Definition getitem (d : kwargs) (key : string) : M value :=
  match d !! key with
  | Some v => mret v
  | None => throw (KeyError key)
  end.

(** Text of a value inside an f-string (only strings are spelled out). *)
Definition fmt (v : value) : string :=
  match v with
  | VStr s => s
  | VNone => "None"
  | VBool true => "True"
  | VBool false => "False"
  | _ => "<object>"
  end.

(** A call [f(k1=.., .., kn=.., **d)]: it is a [TypeError] when [d] is [None]
    and when [d] repeats one of the keywords written out in the call. *)
Definition star_star (keywords : list string) (d : option kwargs)
  : result kwargs :=
  match d with
  | None => Raise (TypeError "argument after ** must be a mapping, not NoneType")
  | Some d =>
      if decide (Exists (λ k, is_Some (d !! k)) keywords) then
        Raise (TypeError "got multiple values for keyword argument")
      else Ok d
  end.

(** [cls( **kw )] for the MCMC move class held by the constructor. *)
Definition MCMCMove_new (cls : option value) (kw : option kwargs) : M MCMCMove :=
  kw ← lift (star_star [] kw);
  match cls with
  | None => throw (TypeError "'NoneType' object is not callable")
  | Some cls =>
      let m := {| move_class := cls; move_kwargs := kw |} in
      emit (EvMCMCMove m);; mret m
  end.

Definition NNPRepexSampler_from_storage (storage : value) : M NNPRepexSampler :=
  match storage with
  | VStr p =>
      emit (EvFromStorage p);;
      mret {| origin := FromStorage p; energy_context_cache := None;
              sampler_context_cache := None; setup_call := None |}
  | _ => throw (TypeError "from_storage: path should be string")
  end.

Definition NNPRepexSampler_new (mcmc_moves : MCMCMove) (kw : option kwargs)
  : M NNPRepexSampler :=
  kw ← lift (star_star ["mcmc_moves"] kw);
  emit (EvNNPRepexSampler mcmc_moves kw);;
  mret {| origin := Constructed mcmc_moves kw; energy_context_cache := None;
          sampler_context_cache := None; setup_call := None |}.

(** The keywords written out in the two set-up calls. *)
Definition setup_keywords : list string :=
  ["n_states"; "mixed_system"; "init_positions"; "temperature";
   "storage_kwargs"; "setup_equilibration_intervals";
   "equilibration_protocol"; "steps_per_setup_equilibration_interval"].

Definition sampler_setup (kind : setup_kind) (s : NNPRepexSampler)
    (a : setup_args) : M NNPRepexSampler :=
  _ ← lift (star_star setup_keywords (Some (setup_kwargs a)));
  emit (match kind with Setup => EvSetup a | SetupDecouple => EvSetupDecouple a end);;
  mret {| origin := origin s;
          energy_context_cache := energy_context_cache s;
          sampler_context_cache := sampler_context_cache s;
          setup_call := Some (kind, a) |}.

(** ** MixedSystemConstructor *)

Record MixedSystemConstructor := {
  _system : System;
  _topology : Topology;
  _nnpify_id : option string;
  _implementation : option string;
  _interpolate : bool;
  _atom_indices : list Z;
  _nnp_potential_str : option string;
  _nnp_potential : MLPotential;
  _createMixedSystem_kwargs : kwargs
}.

(** The system [createMixedSystem] hands back. *)
Record MixedSystem := { made_with : createMixedSystem_args }.

Section MixedSystemConstructor.

Variable mdtraj_select : Topology → string → result (list Z).

Definition MixedSystemConstructor__init__
    (system : System) (topology : Topology) (nnpify_id : option string)
    (nnpify_type : string) (nnp_potential : option string)
    (implementation : option string) (interpolate : bool)
    (createMixedSystem_kwargs : kwargs) : M MixedSystemConstructor :=
  atom_indices ←
    lift (get_atoms_from_resname mdtraj_select topology nnpify_id nnpify_type);
  print_atoms atom_indices;;
  lift (assert_no_residue_constraints system atom_indices);;
  nnp ← MLPotential_new nnp_potential;
  mret {| _system := system;
          _topology := topology;
          _nnpify_id := nnpify_id;
          _implementation := implementation;
          _interpolate := interpolate;
          _atom_indices := atom_indices;
          _nnp_potential_str := nnp_potential;
          _nnp_potential := nnp;
          _createMixedSystem_kwargs := createMixedSystem_kwargs |}.

End MixedSystemConstructor.

(** The keywords written out in the [createMixedSystem] call. *)
Definition createMixedSystem_keywords : list string :=
  ["system"; "atoms"; "implementation"; "interpolate"].

(** The [mixed_system] property. *)
Definition mixed_system (self : MixedSystemConstructor) : M MixedSystem :=
  kw ← lift (star_star createMixedSystem_keywords
               (Some (_createMixedSystem_kwargs self)));
  let a := {| cms_topology := _topology self;
              cms_system := _system self;
              cms_atoms := _atom_indices self;
              cms_implementation := "nnpops";
              cms_interpolate := _interpolate self;
              cms_kwargs := kw |} in
  emit (EvCreateMixedSystem a);;
  mret {| made_with := a |}.

(** ** RepexConstructor *)

Record RepexConstructor := {
  _mixed_system : value;
  _storage_kwargs : kwargs;
  _temperature : value;
  _mcmc_moves : option value;
  _mcmc_moves_kwargs : option kwargs;
  _replica_exchange_sampler_kwargs : option kwargs;
  _n_states : value;
  restart : bool;
  _intervals_per_lambda_window : value;
  _steps_per_equilibration_interval : value;
  _equilibration_protocol : value;
  _extra_kwargs : kwargs;
  _initial_positions : value;
  _decouple : bool
}.

(** [RepexConstructor.__init__]: every argument is stored as it is given. *)
Definition RepexConstructor__init__
    (mixed_system initial_positions n_states temperature
     intervals_per_lambda_window steps_per_equilibration_interval
     equilibration_protocol : value)
    (restart decouple : bool) (storage_kwargs : kwargs)
    (mcmc_moves : option value) (mcmc_moves_kwargs : option kwargs)
    (replica_exchange_sampler_kwargs : option kwargs) (kwargs : kwargs)
  : RepexConstructor :=
  {| _mixed_system := mixed_system;
     _storage_kwargs := storage_kwargs;
     _temperature := temperature;
     _mcmc_moves := mcmc_moves;
     _mcmc_moves_kwargs := mcmc_moves_kwargs;
     _replica_exchange_sampler_kwargs := replica_exchange_sampler_kwargs;
     _n_states := n_states;
     restart := restart;
     _intervals_per_lambda_window := intervals_per_lambda_window;
     _steps_per_equilibration_interval := steps_per_equilibration_interval;
     _equilibration_protocol := equilibration_protocol;
     _extra_kwargs := kwargs;
     _initial_positions := initial_positions;
     _decouple := decouple |}.

(** The keyword arguments shared by the two set-up calls. *)
Definition setup_args_of (self : RepexConstructor) : setup_args :=
  {| n_states := _n_states self;
     mixed_system_arg := _mixed_system self;
     init_positions := _initial_positions self;
     temperature := _temperature self;
     storage_kwargs := _storage_kwargs self;
     setup_equilibration_intervals := _intervals_per_lambda_window self;
     equilibration_protocol := _equilibration_protocol self;
     steps_per_setup_equilibration_interval :=
       _steps_per_equilibration_interval self;
     setup_kwargs := _extra_kwargs self |}.

(** The [sampler] property. *)
Definition sampler (self : RepexConstructor) : M NNPRepexSampler :=
  platform ← get_fastest_platform "mixed";
  context_cache ← ContextCache_new VNone VNone platform;
  mcmc_moves ← MCMCMove_new (_mcmc_moves self) (_mcmc_moves_kwargs self);
  storage ← getitem (_storage_kwargs self) "storage";
  isfile ← os_path_isfile storage;
  (if isfile && negb (restart self) then
     (* file exists and restart not requested *)
     storage ← getitem (_storage_kwargs self) "storage";
     logging_info ("Removing storage file " +:+ fmt storage);;
     storage ← getitem (_storage_kwargs self) "storage";
     os_remove storage
   else mret tt);;
  storage ← getitem (_storage_kwargs self) "storage";
  isfile ← os_path_isfile storage;
  if isfile && restart self then
    storage ← getitem (_storage_kwargs self) "storage";
    logging_info ("Restarting simulation from file " +:+ fmt storage);;
    storage ← getitem (_storage_kwargs self) "storage";
    NNPRepexSampler_from_storage storage
  else
    logging_info "Starting Repex sampling from scratch";;
    _sampler ← NNPRepexSampler_new mcmc_moves
                 (_replica_exchange_sampler_kwargs self);
    let _sampler :=
      {| origin := origin _sampler;
         energy_context_cache := Some context_cache;
         sampler_context_cache := Some context_cache;
         setup_call := setup_call _sampler |} in
    if negb (_decouple self) then
      sampler_setup Setup _sampler (setup_args_of self)
    else
      sampler_setup SetupDecouple _sampler (setup_args_of self).

(** An empty disk and an empty trace, and a disk holding the given files. *)
Definition world_with (fs : list string) : world :=
  {| files := list_to_set fs; trace := [] |}.

(** ** Vocabulary of the statements *)

(** [a] is an end point of a constraint of [system]. *)
Definition constraint_endpoint (system : System) (a : Z) : Prop :=
  ∃ c, c ∈ sys_constraints system ∧ (a = p1 c ∨ a = p2 c).

(** The residues of [topology] called [nnpify_id]. *)
Definition residues_named (topology : Topology) (nnpify_id : option string)
  : list Residue :=
  filter (λ res, Some (res_name res) = nnpify_id) (residues topology).

(** [residue.atoms()] as indices. *)
Definition atom_indices_of (residue : Residue) : list Z :=
  atom_index <$> res_atoms residue.

(** What [sampler] does on each of its paths. *)
Definition the_context_cache : ContextCache :=
  {| capacity := VNone; time_to_live := VNone;
     platform := {| minimum_precision := "mixed" |} |}.

Definition setup_kind_of (self : RepexConstructor) : setup_kind :=
  if _decouple self then SetupDecouple else Setup.

Definition setup_event (kind : setup_kind) (a : setup_args) : event :=
  match kind with Setup => EvSetup a | SetupDecouple => EvSetupDecouple a end.

Definition restored_sampler (storage : string) : NNPRepexSampler :=
  {| origin := FromStorage storage; energy_context_cache := None;
     sampler_context_cache := None; setup_call := None |}.

Definition fresh_sampler (self : RepexConstructor) (m : MCMCMove) (kw : kwargs)
  : NNPRepexSampler :=
  {| origin := Constructed m kw;
     energy_context_cache := Some the_context_cache;
     sampler_context_cache := Some the_context_cache;
     setup_call := Some (setup_kind_of self, setup_args_of self) |}.

Definition prelude_events (m : MCMCMove) : list event :=
  [EvGetFastestPlatform "mixed"; EvContextCache the_context_cache; EvMCMCMove m].
Definition removal_events (storage : string) : list event :=
  [EvLoggingInfo ("Removing storage file " +:+ storage); EvRemove storage].
Definition restore_events (storage : string) : list event :=
  [EvLoggingInfo ("Restarting simulation from file " +:+ storage);
   EvFromStorage storage].
Definition fresh_events (self : RepexConstructor) (m : MCMCMove) (kw : kwargs)
  : list event :=
  [EvLoggingInfo "Starting Repex sampling from scratch";
   EvNNPRepexSampler m kw;
   setup_event (setup_kind_of self) (setup_args_of self)].

(** The world each path leaves behind. *)
Definition after_restore (w : world) (storage : string) (m : MCMCMove)
  : world :=
  {| files := files w;
     trace := trace w ++ prelude_events m ++ restore_events storage |}.
Definition after_remove_and_build (w : world) (self : RepexConstructor)
    (storage : string) (m : MCMCMove) (kw : kwargs) : world :=
  {| files := files w ∖ {[storage]};
     trace := trace w ++ prelude_events m ++ removal_events storage
                ++ fresh_events self m kw |}.
Definition after_build (w : world) (self : RepexConstructor)
    (m : MCMCMove) (kw : kwargs) : world :=
  {| files := files w;
     trace := trace w ++ prelude_events m ++ fresh_events self m kw |}.

(** The set-up calls, the restores and the files removed in a trace. *)
Definition setups_called (tr : list event) : list setup_kind :=
  tr ≫= λ e, match e with
             | EvSetup _ => [Setup]
             | EvSetupDecouple _ => [SetupDecouple]
             | _ => []
             end.
Definition restores_attempted (tr : list event) : list string :=
  tr ≫= λ e, match e with EvFromStorage p => [p] | _ => [] end.
Definition samplers_constructed (tr : list event) : list (MCMCMove * kwargs) :=
  tr ≫= λ e, match e with EvNNPRepexSampler m kw => [(m, kw)] | _ => [] end.
Definition mixed_systems_created (tr : list event)
  : list createMixedSystem_args :=
  tr ≫= λ e, match e with EvCreateMixedSystem a => [a] | _ => [] end.

(** The configuration every path of [sampler] needs: a storage path that is a
    string, a move class and a dictionary of keyword arguments for it. *)
Definition configured (self : RepexConstructor) (storage : string)
    (m : MCMCMove) : Prop :=
  _storage_kwargs self !! "storage" = Some (VStr storage)
  ∧ _mcmc_moves self = Some (move_class m)
  ∧ _mcmc_moves_kwargs self = Some (move_kwargs m).

(** What building from scratch needs on top: a dictionary for the sampler
    without the key mcmc_moves, and no extra keyword that repeats a keyword of
    the set-up call. *)
Definition configured_for_build (self : RepexConstructor) (kw : kwargs) : Prop :=
  _replica_exchange_sampler_kwargs self = Some kw
  ∧ kw !! "mcmc_moves" = None
  ∧ Forall (λ k, _extra_kwargs self !! k = None) setup_keywords.

(** ** Inputs used in the examples *)

(** One residue LIG whose two atoms carry the indices 2 and 1, in that order. *)
Definition lig_2_1 : Residue :=
  {| res_name := "LIG";
     res_atoms := [ {| atom_index := 2 |}; {| atom_index := 1 |} ] |}.
Definition topology_lig_2_1 : Topology :=
  {| top_chains := [ {| chain_residues := [lig_2_1] |} ] |}.

(** A water followed by one residue LIG with the atoms 3, 4, 5. *)
Definition hoh_0_2 : Residue :=
  {| res_name := "HOH";
     res_atoms := [ {| atom_index := 0 |}; {| atom_index := 1 |};
                    {| atom_index := 2 |} ] |}.
Definition lig_3_5 : Residue :=
  {| res_name := "LIG";
     res_atoms := [ {| atom_index := 3 |}; {| atom_index := 4 |};
                    {| atom_index := 5 |} ] |}.
Definition topology_hoh_lig : Topology :=
  {| top_chains := [ {| chain_residues := [hoh_0_2] |};
                     {| chain_residues := [lig_3_5] |} ] |}.

(** A selection engine that answers every query with the indices 2, 1, and
    one that answers with the atoms of the second chain of
    [topology_hoh_lig]. *)
Definition select_2_1 : Topology → string → result (list Z) :=
  λ _ _, Ok [2; 1].
Definition select_3_5 : Topology → string → result (list Z) :=
  λ _ _, Ok [3; 4; 5].

(** The default dictionaries of [RepexConstructor.__init__]; the two
    quantities (1 fs, 1 / ps) are external objects. *)
Definition default_storage_kwargs : kwargs :=
  {[ "storage" := VStr "repex.nc";
     "checkpoint_interval" := VInt 10;
     "analysis_particle_indices" := VNone ]}.
Definition default_mcmc_moves_kwargs : kwargs :=
  {[ "timestep" := VObj 11;
     "collision_rate" := VObj 12;
     "n_steps" := VInt 1000;
     "reassign_velocities" := VBool false ]}.
Definition default_replica_exchange_sampler_kwargs : kwargs :=
  {[ "number_of_iterations" := VInt 5000;
     "online_analysis_interval" := VInt 10;
     "online_analysis_minimum_iterations" := VInt 10 ]}.

(** A constructor with the default dictionaries and no extra keyword;
    [VObj 10] is the class [mcmc.LangevinDynamicsMove]. *)
Definition example_constructor (restart decouple : bool) : RepexConstructor :=
  RepexConstructor__init__ (VObj 1) (VObj 2) (VInt 4) (VObj 3) (VInt 5)
    (VInt 1000) (VStr "minimise") restart decouple
    default_storage_kwargs (Some (VObj 10)) (Some default_mcmc_moves_kwargs)
    (Some default_replica_exchange_sampler_kwargs) ∅.
Definition example_move : MCMCMove :=
  {| move_class := VObj 10; move_kwargs := default_mcmc_moves_kwargs |}.

(** A system whose only constraints hold the water of [topology_hoh_lig]
    rigid, and one that also constrains a bond of the residue LIG. *)
Definition system_rigid_water : System :=
  {| sys_id := 1;
     sys_constraints := [ {| p1 := 0; p2 := 1; distance := VObj 20 |};
                          {| p1 := 0; p2 := 2; distance := VObj 20 |} ] |}.
Definition system_rigid_lig : System :=
  {| sys_id := 2;
     sys_constraints := [ {| p1 := 0; p2 := 1; distance := VObj 20 |};
                          {| p1 := 3; p2 := 4; distance := VObj 21 |} ] |}.

(** The call [createMixedSystem] receives from [mixed_system]. *)
Definition createMixedSystem_call (self : MixedSystemConstructor)
  : createMixedSystem_args :=
  {| cms_topology := _topology self;
     cms_system := _system self;
     cms_atoms := _atom_indices self;
     cms_implementation := "nnpops";
     cms_interpolate := _interpolate self;
     cms_kwargs := _createMixedSystem_kwargs self |}.

#[global] Instance Constraint_eq_dec : EqDecision Constraint.
Proof. solve_decision. Defined.

(** A selection engine that raises, as mdtraj does on a query it cannot
    parse. *)
Definition select_fails : Topology → string → result (list Z) :=
  λ _ _, Raise (ExternalError "ValueError").

(** The two chains of a topology in which the residue LIG occurs twice. *)
Definition chain_lig_3_5 : list Chain := [ {| chain_residues := [lig_3_5] |} ].
Definition chain_lig_2_1 : list Chain := [ {| chain_residues := [lig_2_1] |} ].

(** The object the constructor returns for the residue LIG of
    [topology_hoh_lig] in [system_rigid_water]. *)
Definition example_mixed_constructor : MixedSystemConstructor :=
  {| _system := system_rigid_water;
     _topology := topology_hoh_lig;
     _nnpify_id := Some "LIG";
     _implementation := Some "nnpops";
     _interpolate := true;
     _atom_indices := [3; 4; 5];
     _nnp_potential_str := Some "ani2x";
     _nnp_potential := {| potential_name := Some "ani2x" |};
     _createMixedSystem_kwargs := ∅ |}.

(** Constructors that differ from [example_constructor] in one dictionary. *)
Definition example_constructor_with (restart decouple : bool)
    (storage_kwargs : kwargs) (mcmc_moves_kwargs sampler_kwargs : option kwargs)
    (extra : kwargs) : RepexConstructor :=
  RepexConstructor__init__ (VObj 1) (VObj 2) (VInt 4) (VObj 3) (VInt 5)
    (VInt 1000) (VStr "minimise") restart decouple
    storage_kwargs (Some (VObj 10)) mcmc_moves_kwargs sampler_kwargs extra.

(** * Properties *)

(** ** Python helpers *)

Lemma sorted_fixpoint_iff_ascending (l : list Z) : sorted l = l ↔ ascending l.
Proof.
  unfold sorted, ascending. split.
  - intros <-. apply (Sorted_merge_sort Z.le).
  - intros Hl. apply (Sorted_unique Z.le); [ | done | ].
    + apply (Sorted_merge_sort Z.le).
    + apply merge_sort_Permutation.
Qed.

Lemma for_residue_break_unique rs nnpify_id r cur :
  filter (λ res, Some (res_name res) = nnpify_id) rs = [r] →
  for_residue_break rs nnpify_id cur = Some r.
Proof.
  revert cur. induction rs as [|r0 rs IH]; intros cur; [done|].
  rewrite filter_cons. simpl. destruct (decide _) as [Hm|Hm].
  - by intros [= -> _].
  - apply IH.
Qed.

Lemma collect_constraints_from system (done todo : list Constraint)
    (acc : list Z) :
  sys_constraints system = done ++ todo →
  foldl (append_constraint system) acc (seq (length done) (length todo))
  = acc ++ (todo ≫= λ c, [p1 c; p2 c]).
Proof.
  revert done acc. induction todo as [|c todo IH]; intros done acc Hsys; simpl.
  - by rewrite app_nil_r.
  - unfold append_constraint at 2, getConstraintParameters.
    rewrite Hsys, lookup_app_r, Nat.sub_diag by lia. simpl.
    specialize (IH (done ++ [c]) (acc ++ [p1 c; p2 c])).
    rewrite length_app, Nat.add_1_r, <- !app_assoc in IH. simpl in IH.
    by rewrite IH.
Qed.

Lemma collect_constraints_bind system :
  collect_constraints system = sys_constraints system ≫= λ c, [p1 c; p2 c].
Proof.
  unfold collect_constraints, getNumConstraints.
  exact (collect_constraints_from system [] (sys_constraints system) [] eq_refl).
Qed.

Lemma elem_of_collect_constraints system a :
  a ∈ collect_constraints system ↔ constraint_endpoint system a.
Proof.
  rewrite collect_constraints_bind, list_elem_of_bind.
  unfold constraint_endpoint. split.
  - intros (c & Ha & Hc). exists c. split; [done|].
    apply elem_of_cons in Ha as [->|Ha]; [by left|].
    apply list_elem_of_singleton in Ha as ->. by right.
  - intros (c & Hc & [->| ->]); exists c; split; try done.
    + apply elem_of_cons. by left.
    + apply elem_of_cons. right. by apply list_elem_of_singleton.
Qed.

(** ** Constraint validation *)

(** C1. [assert_no_residue_constraints system atoms] raises exactly when an
    end point of some constraint of the system is one of the selected atoms,
    and returns (nothing) exactly when no end point is selected. *)
Theorem assert_no_residue_constraints_raises_iff system (atoms : list Z) :
  (raises (assert_no_residue_constraints system atoms)
     ↔ ∃ a, constraint_endpoint system a ∧ a ∈ atoms)
  ∧ (assert_no_residue_constraints system atoms = Ok tt
     ↔ ¬ ∃ a, constraint_endpoint system a ∧ a ∈ atoms).
Proof.
  set (I := (list_to_set (collect_constraints system) ∩ list_to_set atoms
             : gset Z)).
  assert (Helem : ∀ a, a ∈ I ↔ constraint_endpoint system a ∧ a ∈ atoms).
  { intros a. unfold I.
    by rewrite elem_of_intersection, !elem_of_list_to_set,
         elem_of_collect_constraints. }
  assert (Hempty : I = ∅ ↔ ¬ ∃ a, constraint_endpoint system a ∧ a ∈ atoms).
  { split.
    - intros He (a & Ha). apply Helem in Ha. rewrite He in Ha. set_solver.
    - intros Hn. apply set_eq. intros a. split; [|set_solver].
      intros Ha. exfalso. apply Hn. exists a. by apply Helem. }
  unfold assert_no_residue_constraints, raises. fold I.
  destruct (decide (I = ∅)) as [He|Hne]; split.
  - split; [by intros [e [=]]|]. intros Hex. by apply Hempty in He.
  - split; [|done]. intros _. by apply Hempty.
  - split; [|by eexists]. intros _.
    apply set_choose_L in Hne as [a Ha]. exists a. by apply Helem.
  - split; [done|]. intros Hn. exfalso. by apply Hne, Hempty.
Qed.

(** ** Atom selection *)

Lemma get_atoms_from_resname_chain sel topology nnpify_id :
  get_atoms_from_resname sel topology nnpify_id "chain"
  = sel topology ("chainid == " +:+ py_str nnpify_id).
Proof. done. Qed.

Lemma get_atoms_from_resname_resname sel topology nnpify_id :
  get_atoms_from_resname sel topology nnpify_id "resname" =
  match residues_named topology nnpify_id with
  | [r] =>
      if decide (ascending (atom_indices_of r)) then Ok (atom_indices_of r)
      else Raise (AssertionError (NotAscending (atom_indices_of r)))
  | l => Raise (AssertionError (ResidueCount nnpify_id (length l)))
  end.
Proof.
  unfold get_atoms_from_resname, residues_named, atom_indices_of.
  rewrite decide_False by done. rewrite decide_True by done.
  rewrite length_fmap.
  destruct (filter _ (residues topology)) as [|r [|r' l]] eqn:Hf; simpl;
    [done| |done].
  rewrite (for_residue_break_unique _ _ r None Hf).
  destruct (decide (sorted _ = _)) as [Hs|Hs];
    destruct (decide (ascending _)) as [Ha|Ha]; try done.
  - by apply sorted_fixpoint_iff_ascending in Hs.
  - by apply sorted_fixpoint_iff_ascending in Ha.
Qed.

(** C3, as amended.  Resolution by residue name raises unless exactly one
    residue of the topology has the requested name; when exactly one has it,
    the atom indices of that residue are returned if they are in ascending
    order, and the call raises if they are not. *)
Theorem resname_resolution_needs_one_ascending_residue
    sel topology nnpify_id :
  (raises (get_atoms_from_resname sel topology nnpify_id "resname")
     ↔ length (residues_named topology nnpify_id) ≠ 1%nat
       ∨ ∃ r, residues_named topology nnpify_id = [r]
              ∧ ¬ ascending (atom_indices_of r))
  ∧ (∀ atoms,
       get_atoms_from_resname sel topology nnpify_id "resname" = Ok atoms
       ↔ ∃ r, residues_named topology nnpify_id = [r]
              ∧ ascending (atom_indices_of r)
              ∧ atoms = atom_indices_of r).
Proof.
  rewrite get_atoms_from_resname_resname. unfold raises.
  destruct (residues_named topology nnpify_id) as [|r [|r' l]]; simpl.
  - split; [split; [by left|by eexists]|].
    intros atoms. split; [done|]. by intros (r & [=] & _).
  - destruct (decide (ascending (atom_indices_of r))) as [Ha|Ha]; split.
    + split; [by intros [e [=]]|].
      intros [Hl|(r0 & [= <-] & Hn)]; [lia|done].
    + intros atoms. split.
      * intros [= <-]. by exists r.
      * by intros (r0 & [= <-] & _ & ->).
    + split; [|by eexists]. intros _. right. by exists r.
    + intros atoms. split; [done|]. by intros (r0 & [= <-] & Ha' & _).
  - split; [split; [by left|by eexists]|].
    intros atoms. split; [done|]. by intros (r0 & [=] & _).
Qed.

(** C3, as stated, fails: exactly one residue is called LIG, and the call
    raises, because the atoms of that residue are listed as 2, 1. *)
Lemma resname_resolution_raises_on_unique_residue :
  residues_named topology_lig_2_1 (Some "LIG") = [lig_2_1]
  ∧ get_atoms_from_resname select_3_5 topology_lig_2_1 (Some "LIG") "resname"
    = Raise (AssertionError (NotAscending [2; 1])).
Proof. split; vm_compute; reflexivity. Qed.




(** C10. A [nnpify_type] other than "chain" and "resname" raises the
    [ValueError], whatever the topology, the identifier and the selection
    engine are: neither is consulted. *)
Theorem unknown_nnpify_type_raises_ValueError (nnpify_type : string)
    (Hchain : nnpify_type ≠ "chain") (Hresname : nnpify_type ≠ "resname") :
  ∀ sel topology nnpify_id,
    get_atoms_from_resname sel topology nnpify_id nnpify_type
    = Raise (ValueError "Either chain or resname must be set").
Proof.
  intros sel topology nnpify_id. unfold get_atoms_from_resname.
  by rewrite !decide_False.
Qed.

Lemma unknown_nnpify_type_raises_ValueError_witness :
  get_atoms_from_resname select_2_1 topology_hoh_lig (Some "LIG") "residue"
  = Raise (ValueError "Either chain or resname must be set").
Proof.
  apply (unknown_nnpify_type_raises_ValueError "residue"); discriminate.
Defined.

(** ** The sampler property *)

Ltac run :=
  unfold MCMCMove_new, NNPRepexSampler_new, NNPRepexSampler_from_storage,
    sampler_setup, get_fastest_platform, ContextCache_new, MLPotential_new,
    print_atoms, logging_info, os_remove, os_path_isfile, getitem, emit, lift,
    throw, mbind, M_bind, mret, M_ret; simpl.

Ltac run_in H :=
  unfold MCMCMove_new, NNPRepexSampler_new, NNPRepexSampler_from_storage,
    sampler_setup, get_fastest_platform, ContextCache_new, MLPotential_new,
    print_atoms, logging_info, os_remove, os_path_isfile, getitem, emit, lift,
    throw, mbind, M_bind, mret, M_ret in H; simpl in H.

#[local] Arguments star_star : simpl never.

Lemma removed_file_is_gone (p : string) (fs : gset string) : p ∉ fs ∖ {[p]}.
Proof. rewrite elem_of_difference, elem_of_singleton. tauto. Qed.

Lemma star_star_Ok keywords (d : kwargs) :
  Forall (λ k, d !! k = None) keywords → star_star keywords (Some d) = Ok d.
Proof.
  intros Hfree. unfold star_star. rewrite decide_False; [done|].
  rewrite Exists_exists. intros (k & Hk & Hsome).
  rewrite Forall_forall in Hfree. rewrite (Hfree k Hk) in Hsome.
  by destruct Hsome.
Qed.

Lemma star_star_inv keywords d kw :
  star_star keywords d = Ok kw →
  d = Some kw ∧ Forall (λ k, kw !! k = None) keywords.
Proof.
  unfold star_star. destruct d as [d|]; [|done].
  destruct (decide _) as [|Hn]; [done|]. intros [= ->]. split; [done|].
  apply Forall_forall. intros k Hk. destruct (kw !! k) eqn:Hl; [|done].
  exfalso. apply Hn, Exists_exists. exists k. by rewrite Hl.
Qed.

Lemma sampler_restores self storage m w :
  configured self storage m → storage ∈ files w → restart self = true →
  sampler self w
  = (Ok (restored_sampler storage), after_restore w storage m).
Proof.
  intros (Hs & Hc & Hk) Hin Hr. unfold sampler, after_restore. run.
  rewrite Hk, Hc, Hs, Hr. simpl.
  repeat (rewrite bool_decide_eq_true_2 by done; simpl).
  destruct m. by rewrite <- !app_assoc.
Qed.

Lemma sampler_removes_and_builds self storage m kw w :
  configured self storage m → configured_for_build self kw →
  storage ∈ files w → restart self = false →
  sampler self w
  = (Ok (fresh_sampler self m kw), after_remove_and_build w self storage m kw).
Proof.
  intros (Hs & Hc & Hk) (Hkw & Hfree & Hextra) Hin Hr.
  unfold sampler, after_remove_and_build. run.
  rewrite Hk, Hc, Hs, Hr, Hkw. simpl.
  rewrite bool_decide_eq_true_2 by done. simpl.
  rewrite decide_True by done. simpl.
  rewrite bool_decide_eq_false_2 by apply removed_file_is_gone. simpl.
  rewrite (star_star_Ok ["mcmc_moves"] kw) by (by constructor).
  unfold fresh_sampler, fresh_events, setup_kind_of, setup_event.
  destruct m, (_decouple self); simpl; run;
    rewrite (star_star_Ok setup_keywords _ Hextra); simpl;
    by rewrite <- !app_assoc.
Qed.

Lemma sampler_builds self storage m kw w :
  configured self storage m → configured_for_build self kw →
  storage ∉ files w →
  sampler self w
  = (Ok (fresh_sampler self m kw), after_build w self m kw).
Proof.
  intros (Hs & Hc & Hk) (Hkw & Hfree & Hextra) Hin.
  unfold sampler, after_build. run.
  rewrite Hk, Hc, Hs, Hkw. simpl.
  repeat (rewrite bool_decide_eq_false_2 by done; simpl).
  rewrite (star_star_Ok ["mcmc_moves"] kw) by (by constructor).
  unfold fresh_sampler, fresh_events, setup_kind_of, setup_event.
  destruct m, (_decouple self); simpl; run;
    rewrite (star_star_Ok setup_keywords _ Hextra); simpl;
    by rewrite <- !app_assoc.
Qed.

(** Every way [sampler] can return. *)
Lemma sampler_returns_inv self w s w' :
  sampler self w = (Ok s, w') →
  ∃ storage m, configured self storage m ∧
    ((storage ∈ files w ∧ restart self = true
      ∧ s = restored_sampler storage ∧ w' = after_restore w storage m)
     ∨ (∃ kw, configured_for_build self kw ∧ s = fresh_sampler self m kw
        ∧ ((storage ∈ files w ∧ restart self = false
            ∧ w' = after_remove_and_build w self storage m kw)
           ∨ ((storage ∉ files w) ∧ w' = after_build w self m kw)))).
Proof.
  intros Hrun.
  destruct (_mcmc_moves_kwargs self) as [mkw|] eqn:Hk;
    [|by unfold sampler in Hrun; run_in Hrun; rewrite Hk in Hrun].
  destruct (_mcmc_moves self) as [cls|] eqn:Hc;
    [|by unfold sampler in Hrun; run_in Hrun; rewrite Hk, Hc in Hrun].
  destruct (_storage_kwargs self !! "storage") as [v|] eqn:Hs;
    [|by unfold sampler in Hrun; run_in Hrun; rewrite Hk, Hc, Hs in Hrun].
  destruct v as [ | | |storage| ];
    try (by unfold sampler in Hrun; run_in Hrun; rewrite Hk, Hc, Hs in Hrun).
  set (m := {| move_class := cls; move_kwargs := mkw |}).
  assert (Hconf : configured self storage m) by done.
  exists storage, m. split; [done|].
  destruct (decide (storage ∈ files w)) as [Hin|Hout].
  - destruct (restart self) eqn:Hr.
    + left. rewrite (sampler_restores _ _ _ _ Hconf Hin Hr) in Hrun.
      by injection Hrun as <- <-.
    + right.
      destruct (star_star ["mcmc_moves"] (_replica_exchange_sampler_kwargs self))
        as [kw|e] eqn:Hkw.
      2:{ unfold sampler in Hrun. run_in Hrun. rewrite Hk, Hc, Hs, Hr in Hrun.
          simpl in Hrun. rewrite bool_decide_eq_true_2 in Hrun by done.
          simpl in Hrun. rewrite decide_True in Hrun by done. simpl in Hrun.
          rewrite bool_decide_eq_false_2 in Hrun by apply removed_file_is_gone.
          simpl in Hrun. by rewrite Hkw in Hrun. }
      apply star_star_inv in Hkw as [Hkw Hfree].
      destruct (star_star setup_keywords (Some (_extra_kwargs self)))
        as [kw'|e] eqn:Hextra.
      2:{ unfold sampler in Hrun. run_in Hrun. rewrite Hk, Hc, Hs, Hr, Hkw in Hrun.
          simpl in Hrun. rewrite bool_decide_eq_true_2 in Hrun by done.
          simpl in Hrun. rewrite decide_True in Hrun by done. simpl in Hrun.
          rewrite bool_decide_eq_false_2 in Hrun by apply removed_file_is_gone.
          simpl in Hrun.
          rewrite (star_star_Ok ["mcmc_moves"] kw) in Hrun by done.
          destruct (_decouple self); simpl in Hrun; run_in Hrun;
            by rewrite Hextra in Hrun. }
      apply star_star_inv in Hextra as [[= <-] Hextra].
      assert (Hbuild : configured_for_build self kw).
      { split; [done|]. split; [|done]. by inversion Hfree. }
      exists kw. split; [done|].
      rewrite (sampler_removes_and_builds _ _ _ _ _ Hconf Hbuild Hin Hr) in Hrun.
      injection Hrun as <- <-. split; [done|]. by left.
  - right.
    destruct (star_star ["mcmc_moves"] (_replica_exchange_sampler_kwargs self))
      as [kw|e] eqn:Hkw.
    2:{ unfold sampler in Hrun. run_in Hrun. rewrite Hk, Hc, Hs in Hrun.
        simpl in Hrun.
        repeat (rewrite bool_decide_eq_false_2 in Hrun by done; simpl in Hrun).
        by rewrite Hkw in Hrun. }
    apply star_star_inv in Hkw as [Hkw Hfree].
    destruct (star_star setup_keywords (Some (_extra_kwargs self)))
      as [kw'|e] eqn:Hextra.
    2:{ unfold sampler in Hrun. run_in Hrun. rewrite Hk, Hc, Hs, Hkw in Hrun.
        simpl in Hrun.
        repeat (rewrite bool_decide_eq_false_2 in Hrun by done; simpl in Hrun).
        rewrite (star_star_Ok ["mcmc_moves"] kw) in Hrun by done.
        destruct (_decouple self); simpl in Hrun; run_in Hrun;
          by rewrite Hextra in Hrun. }
    apply star_star_inv in Hextra as [[= <-] Hextra].
    assert (Hbuild : configured_for_build self kw).
    { split; [done|]. split; [|done]. by inversion Hfree. }
    exists kw. split; [done|].
    rewrite (sampler_builds _ _ _ _ _ Hconf Hbuild Hout) in Hrun.
    injection Hrun as <- <-. split; [done|]. by right.
Qed.

Lemma example_configured restart decouple :
  configured (example_constructor restart decouple) "repex.nc" example_move.
Proof. repeat split. Defined.

Lemma example_configured_for_build restart decouple :
  configured_for_build (example_constructor restart decouple)
    default_replica_exchange_sampler_kwargs.
Proof. repeat split; repeat constructor. Defined.

Lemma setups_called_app tr1 tr2 :
  setups_called (tr1 ++ tr2) = setups_called tr1 ++ setups_called tr2.
Proof. apply bind_app. Qed.

Lemma restores_attempted_app tr1 tr2 :
  restores_attempted (tr1 ++ tr2)
  = restores_attempted tr1 ++ restores_attempted tr2.
Proof. apply bind_app. Qed.

Lemma samplers_constructed_app tr1 tr2 :
  samplers_constructed (tr1 ++ tr2)
  = samplers_constructed tr1 ++ samplers_constructed tr2.
Proof. apply bind_app. Qed.

Lemma samplers_constructed_fresh_events self m kw :
  samplers_constructed (fresh_events self m kw) = [(m, kw)].
Proof. unfold fresh_events. by destruct (setup_kind_of self). Qed.

Lemma restores_attempted_fresh_events self m kw :
  restores_attempted (fresh_events self m kw) = [].
Proof. unfold fresh_events. by destruct (setup_kind_of self). Qed.

Lemma setups_called_fresh_events self m kw :
  setups_called (fresh_events self m kw) = [setup_kind_of self].
Proof. unfold fresh_events. by destruct (setup_kind_of self). Qed.

(** C2. With the storage file on disk: when [restart] is set the sampler is
    the one [from_storage] gives for that file, no sampler is constructed or
    set up and the file stays; when [restart] is unset the file is removed,
    [from_storage] is not called, and a freshly constructed sampler is set
    up. *)
Theorem sampler_restores_or_removes_and_builds self storage m w
    (Hconf : configured self storage m) (Hfile : storage ∈ files w) :
  (restart self = true →
     let w' := after_restore w storage m in
     sampler self w = (Ok (restored_sampler storage), w')
     ∧ storage ∈ files w'
     ∧ restores_attempted (trace w') = restores_attempted (trace w) ++ [storage]
     ∧ samplers_constructed (trace w') = samplers_constructed (trace w)
     ∧ setups_called (trace w') = setups_called (trace w))
  ∧ (restart self = false → ∀ kw, configured_for_build self kw →
     let w' := after_remove_and_build w self storage m kw in
     sampler self w = (Ok (fresh_sampler self m kw), w')
     ∧ (storage ∉ files w')
     ∧ restores_attempted (trace w') = restores_attempted (trace w)
     ∧ samplers_constructed (trace w')
       = samplers_constructed (trace w) ++ [(m, kw)]
     ∧ setups_called (trace w')
       = setups_called (trace w) ++ [setup_kind_of self]).
Proof.
  split.
  - intros Hr w'. split; [by apply sampler_restores|]. split; [done|].
    unfold w', after_restore. cbn [trace].
    rewrite !restores_attempted_app, !samplers_constructed_app,
      !setups_called_app.
    repeat split; apply app_nil_r.
  - intros Hr kw Hbuild w'. split; [by apply sampler_removes_and_builds|].
    split; [apply removed_file_is_gone|].
    unfold w', after_remove_and_build. cbn [trace].
    rewrite !restores_attempted_app, !samplers_constructed_app,
      !setups_called_app, restores_attempted_fresh_events,
      samplers_constructed_fresh_events, setups_called_fresh_events.
    repeat split. apply app_nil_r.
Qed.

Lemma example_file_on_disk : "repex.nc" ∈ files (world_with ["repex.nc"]).
Proof. apply (bool_decide_unpack _). vm_compute. exact I. Defined.

Lemma example_file_not_on_disk : "repex.nc" ∉ files (world_with []).
Proof. apply (bool_decide_unpack _). vm_compute. exact I. Defined.

Lemma sampler_restores_or_removes_and_builds_witness :
  (sampler (example_constructor true false) (world_with ["repex.nc"])).1
  = Ok (restored_sampler "repex.nc")
  ∧ (sampler (example_constructor false false) (world_with ["repex.nc"])).1
    = Ok (fresh_sampler (example_constructor false false) example_move
            default_replica_exchange_sampler_kwargs).
Proof.
  split.
  - destruct (sampler_restores_or_removes_and_builds
                (example_constructor true false) "repex.nc" example_move
                (world_with ["repex.nc"]) (example_configured _ _)
                example_file_on_disk) as [Hrestore _].
    destruct (Hrestore eq_refl) as [-> _]. reflexivity.
  - destruct (sampler_restores_or_removes_and_builds
                (example_constructor false false) "repex.nc" example_move
                (world_with ["repex.nc"]) (example_configured _ _)
                example_file_on_disk) as [_ Hbuild].
    destruct (Hbuild eq_refl _ (example_configured_for_build _ _)) as [-> _].
    reflexivity.
Defined.

(** C9. With [restart] set and no storage file on disk, [sampler] returns a
    freshly constructed sampler that has been set up; nothing is raised and
    [from_storage] is not called. *)
Theorem sampler_builds_when_restart_finds_no_file self storage m kw w
    (Hconf : configured self storage m)
    (Hbuild : configured_for_build self kw)
    (Hrestart : restart self = true) (Hnofile : storage ∉ files w) :
  let w' := after_build w self m kw in
  sampler self w = (Ok (fresh_sampler self m kw), w')
  ∧ restores_attempted (trace w') = restores_attempted (trace w)
  ∧ samplers_constructed (trace w') = samplers_constructed (trace w) ++ [(m, kw)]
  ∧ setups_called (trace w') = setups_called (trace w) ++ [setup_kind_of self].
Proof.
  intros w'. split; [by apply (sampler_builds self storage)|].
  unfold w', after_build. cbn [trace].
  rewrite !restores_attempted_app, !samplers_constructed_app,
    !setups_called_app, restores_attempted_fresh_events,
    samplers_constructed_fresh_events, setups_called_fresh_events.
  repeat split. apply app_nil_r.
Qed.

Lemma sampler_builds_when_restart_finds_no_file_witness :
  (sampler (example_constructor true false) (world_with [])).1
  = Ok (fresh_sampler (example_constructor true false) example_move
          default_replica_exchange_sampler_kwargs).
Proof.
  destruct (sampler_builds_when_restart_finds_no_file
              (example_constructor true false) "repex.nc" example_move
              default_replica_exchange_sampler_kwargs (world_with [])
              (example_configured _ _) (example_configured_for_build _ _)
              eq_refl example_file_not_on_disk) as [-> _].
  reflexivity.
Defined.

(** C5, as amended.  After the check for the storage file, [sampler] either
    restores (file on disk and [restart] set), and then makes no set-up call,
    or constructs a sampler and makes exactly one set-up call, which is
    [setup] when [decouple] is unset and [setup_decouple] when it is set. *)
Theorem setup_call_chosen_by_decouple self storage m kw w
    (Hconf : configured self storage m)
    (Hbuild : configured_for_build self kw) :
  ∃ s w', sampler self w = (Ok s, w') ∧
    if bool_decide (storage ∈ files w) && restart self then
      s = restored_sampler storage
      ∧ setups_called (trace w') = setups_called (trace w)
    else
      setup_call s
      = Some (if _decouple self then SetupDecouple else Setup, setup_args_of self)
      ∧ setups_called (trace w')
        = setups_called (trace w)
            ++ [if _decouple self then SetupDecouple else Setup].
Proof.
  assert (Hfresh : ∀ tr,
    setups_called (trace w ++ prelude_events m ++ tr ++ fresh_events self m kw)
    = setups_called (trace w) ++ setups_called tr ++ [setup_kind_of self]).
  { intros tr.
    by rewrite !setups_called_app, setups_called_fresh_events. }
  destruct (decide (storage ∈ files w)) as [Hin|Hout].
  - rewrite bool_decide_eq_true_2 by done.
    destruct (restart self) eqn:Hr; simpl.
    + eexists _, _. split; [by apply sampler_restores|].
      split; [done|]. unfold after_restore. cbn [trace].
      rewrite !setups_called_app. apply app_nil_r.
    + eexists _, _. split; [by apply sampler_removes_and_builds|].
      split; [done|]. unfold after_remove_and_build. cbn [trace].
      by rewrite Hfresh.
  - rewrite bool_decide_eq_false_2 by done. simpl.
    eexists _, _. split; [by apply (sampler_builds self storage)|].
    split; [done|]. unfold after_build. cbn [trace].
    apply (Hfresh []).
Qed.

Lemma setup_call_chosen_by_decouple_witness :
  ∃ s w',
    sampler (example_constructor true true) (world_with []) = (Ok s, w')
    ∧ setup_call s
      = Some (SetupDecouple, setup_args_of (example_constructor true true))
    ∧ setups_called (trace w') = [SetupDecouple].
Proof.
  destruct (setup_call_chosen_by_decouple
              (example_constructor true true) "repex.nc" example_move
              default_replica_exchange_sampler_kwargs (world_with [])
              (example_configured _ _) (example_configured_for_build _ _))
    as (s & w' & Hrun & Hcall).
  exists s, w'. split; [exact Hrun|].
  rewrite bool_decide_eq_false_2 in Hcall by exact example_file_not_on_disk.
  exact Hcall.
Defined.

(** C5, as stated, fails: with the same [restart] flag the two constructors
    make different set-up calls, and flipping [restart] alone changes
    nothing. *)
Lemma setup_call_not_chosen_by_restart :
  restart (example_constructor false false)
  = restart (example_constructor false true)
  ∧ setups_called
      (trace (sampler (example_constructor false false) (world_with [])).2)
    = [Setup]
  ∧ setups_called
      (trace (sampler (example_constructor false true) (world_with [])).2)
    = [SetupDecouple]
  ∧ setups_called
      (trace (sampler (example_constructor true false) (world_with [])).2)
    = [Setup].
Proof. repeat split; vm_compute; reflexivity. Qed.

(** C7. When [sampler] builds a fresh sampler, the three dictionaries given to
    the constructor reach the external calls as they were given: the move is
    made from [mcmc_moves_kwargs], the sampler from
    [replica_exchange_sampler_kwargs], and the set-up call receives
    [storage_kwargs]. *)
Theorem configuration_dictionaries_forwarded_unmodified
    (mixed_system_obj initial_positions n_states temperature
     intervals_per_lambda_window steps_per_equilibration_interval
     equilibration_protocol : value)
    (restart decouple : bool) (storage_kw : kwargs)
    (mcmc_moves : option value) (mcmc_moves_kw sampler_kw : option kwargs)
    (extra : kwargs) (w w' : world) (s : NNPRepexSampler)
    (m : MCMCMove) (kw : kwargs) :
  let self :=
    RepexConstructor__init__ mixed_system_obj initial_positions n_states
      temperature intervals_per_lambda_window steps_per_equilibration_interval
      equilibration_protocol restart decouple storage_kw mcmc_moves
      mcmc_moves_kw sampler_kw extra in
  sampler self w = (Ok s, w') →
  origin s = Constructed m kw →
  mcmc_moves_kw = Some (move_kwargs m)
  ∧ sampler_kw = Some kw
  ∧ ∃ kind a removal,
      setup_call s = Some (kind, a)
      ∧ storage_kwargs a = storage_kw
      ∧ trace w'
        = trace w ++ [EvGetFastestPlatform "mixed";
                      EvContextCache the_context_cache; EvMCMCMove m]
            ++ removal
            ++ [EvLoggingInfo "Starting Repex sampling from scratch";
                EvNNPRepexSampler m kw; setup_event kind a].
Proof.
  intros self Hrun Horigin.
  apply sampler_returns_inv in Hrun
    as (storage & m0 & (Hs & Hc & Hk)
        & [(_ & _ & -> & _)|(kw0 & (Hkw & _) & -> & Hw')]); [done|].
  injection Horigin as <- <-.
  split; [exact Hk|]. split; [exact Hkw|].
  exists (setup_kind_of self), (setup_args_of self).
  destruct Hw' as [(_ & _ & ->)|(_ & ->)].
  - by exists (removal_events storage).
  - by exists [].
Qed.

Lemma configuration_dictionaries_forwarded_unmodified_witness :
  ∃ kind a removal,
    setup_call (fresh_sampler (example_constructor false false) example_move
                  default_replica_exchange_sampler_kwargs) = Some (kind, a)
    ∧ storage_kwargs a = default_storage_kwargs
    ∧ trace (after_remove_and_build (world_with ["repex.nc"])
               (example_constructor false false) "repex.nc" example_move
               default_replica_exchange_sampler_kwargs)
      = trace (world_with ["repex.nc"])
          ++ [EvGetFastestPlatform "mixed";
              EvContextCache the_context_cache; EvMCMCMove example_move]
          ++ removal
          ++ [EvLoggingInfo "Starting Repex sampling from scratch";
              EvNNPRepexSampler example_move
                default_replica_exchange_sampler_kwargs;
              setup_event kind a].
Proof.
  destruct (configuration_dictionaries_forwarded_unmodified
              (VObj 1) (VObj 2) (VInt 4) (VObj 3) (VInt 5) (VInt 1000)
              (VStr "minimise") false false default_storage_kwargs
              (Some (VObj 10)) (Some default_mcmc_moves_kwargs)
              (Some default_replica_exchange_sampler_kwargs) ∅
              (world_with ["repex.nc"])
              (after_remove_and_build (world_with ["repex.nc"])
                 (example_constructor false false) "repex.nc" example_move
                 default_replica_exchange_sampler_kwargs)
              (fresh_sampler (example_constructor false false) example_move
                 default_replica_exchange_sampler_kwargs)
              example_move default_replica_exchange_sampler_kwargs)
    as (_ & _ & Hforwarded).
  - apply (sampler_removes_and_builds (example_constructor false false)
             "repex.nc" example_move default_replica_exchange_sampler_kwargs).
    + apply example_configured.
    + apply example_configured_for_build.
    + apply example_file_on_disk.
    + reflexivity.
  - reflexivity.
  - exact Hforwarded.
Defined.

(** ** MixedSystemConstructor *)

Lemma mixed_systems_created_app tr1 tr2 :
  mixed_systems_created (tr1 ++ tr2)
  = mixed_systems_created tr1 ++ mixed_systems_created tr2.
Proof. apply bind_app. Qed.

(** What the [mixed_system] property does: one call of [createMixedSystem],
    unless an extra keyword repeats a keyword of that call. *)
Lemma mixed_system_run self w :
  (Forall (λ k, _createMixedSystem_kwargs self !! k = None)
     createMixedSystem_keywords
   ∧ mixed_system self w
     = (Ok {| made_with := createMixedSystem_call self |},
        {| files := files w;
           trace := trace w ++ [EvCreateMixedSystem (createMixedSystem_call self)] |}))
  ∨ (Exists (λ k, is_Some (_createMixedSystem_kwargs self !! k))
       createMixedSystem_keywords
     ∧ mixed_system self w
       = (Raise (TypeError "got multiple values for keyword argument"), w)).
Proof.
  unfold mixed_system. run. unfold star_star.
  destruct (decide _) as [Hclash|Hfree]; [by right|]. left.
  split; [|done]. apply Forall_forall. intros k Hk.
  destruct (_createMixedSystem_kwargs self !! k) eqn:Hl; [|done].
  exfalso. apply Hfree, Exists_exists. exists k. by rewrite Hl.
Qed.

Lemma MixedSystemConstructor__init__run sel system topology nnpify_id
    nnpify_type nnp_potential implementation interpolate cms_kw w :
  MixedSystemConstructor__init__ sel system topology nnpify_id nnpify_type
    nnp_potential implementation interpolate cms_kw w
  = match get_atoms_from_resname sel topology nnpify_id nnpify_type with
    | Raise e => (Raise e, w)
    | Ok atoms =>
        match assert_no_residue_constraints system atoms with
        | Raise e =>
            (Raise e,
             {| files := files w; trace := trace w ++ [EvPrint atoms] |})
        | Ok _ =>
            (Ok {| _system := system;
                   _topology := topology;
                   _nnpify_id := nnpify_id;
                   _implementation := implementation;
                   _interpolate := interpolate;
                   _atom_indices := atoms;
                   _nnp_potential_str := nnp_potential;
                   _nnp_potential := {| potential_name := nnp_potential |};
                   _createMixedSystem_kwargs := cms_kw |},
             {| files := files w;
                trace := trace w ++ [EvPrint atoms; EvMLPotential nnp_potential] |})
        end
    end.
Proof.
  unfold MixedSystemConstructor__init__. run.
  destruct (get_atoms_from_resname _ _ _ _) as [atoms|e]; [|done].
  destruct (assert_no_residue_constraints _ _) as [[]|e]; [|done].
  by rewrite <- app_assoc.
Qed.

(** C6. The [implementation] given to the constructor is stored, and plays no
    part in the [mixed_system] property: the one call of [createMixedSystem]
    it makes carries the implementation "nnpops", and a constructor given any
    other [implementation] makes the very same call. *)
Theorem mixed_system_implementation_is_nnpops
    sel system topology nnpify_id nnpify_type nnp_potential interpolate cms_kw
    (implementation : option string) (w w1 : world)
    (self : MixedSystemConstructor)
    (Hinit : MixedSystemConstructor__init__ sel system topology nnpify_id
               nnpify_type nnp_potential implementation interpolate cms_kw w
             = (Ok self, w1)) :
  _implementation self = implementation
  ∧ ∀ w2,
      ((cms_implementation (createMixedSystem_call self) = "nnpops"
        ∧ mixed_system self w2
          = (Ok {| made_with := createMixedSystem_call self |},
             {| files := files w2;
                trace := trace w2
                           ++ [EvCreateMixedSystem (createMixedSystem_call self)] |}))
       ∨ (Exists (λ k, is_Some (cms_kw !! k)) createMixedSystem_keywords
          ∧ mixed_system self w2
            = (Raise (TypeError "got multiple values for keyword argument"),
               w2)))
      ∧ ∀ implementation' : option string,
          ∃ self',
            MixedSystemConstructor__init__ sel system topology nnpify_id
              nnpify_type nnp_potential implementation' interpolate cms_kw w
            = (Ok self', w1)
            ∧ _implementation self' = implementation'
            ∧ mixed_system self' w2 = mixed_system self w2.
Proof.
  rewrite MixedSystemConstructor__init__run in Hinit.
  destruct (get_atoms_from_resname _ _ _ _) as [atoms|e] eqn:Hatoms; [|done].
  destruct (assert_no_residue_constraints _ _) as [[]|e] eqn:Hvalid; [|done].
  injection Hinit as <- <-. split; [done|]. intros w2. split.
  - destruct (mixed_system_run
                {| _system := system; _topology := topology;
                   _nnpify_id := nnpify_id; _implementation := implementation;
                   _interpolate := interpolate; _atom_indices := atoms;
                   _nnp_potential_str := nnp_potential;
                   _nnp_potential := {| potential_name := nnp_potential |};
                   _createMixedSystem_kwargs := cms_kw |} w2)
      as [[_ Hrun]|[Hclash Hrun]]; [by left|by right].
  - intros implementation'. eexists.
    rewrite MixedSystemConstructor__init__run, Hatoms, Hvalid.
    split; [reflexivity|]. split; reflexivity.
Qed.

Lemma mixed_system_implementation_is_nnpops_witness :
  ∃ self,
    _implementation self = Some "torchani"
    ∧ (mixed_system self (world_with [])).1
      = Ok {| made_with :=
                {| cms_topology := topology_hoh_lig;
                   cms_system := system_rigid_water;
                   cms_atoms := [3; 4; 5];
                   cms_implementation := "nnpops";
                   cms_interpolate := true;
                   cms_kwargs := ∅ |} |}.
Proof.
  eexists.
  destruct (mixed_system_implementation_is_nnpops
              select_3_5 system_rigid_water topology_hoh_lig (Some "LIG")
              "resname" (Some "ani2x") true ∅ (Some "torchani")
              (world_with []) _ _ eq_refl) as [Himpl Hcall].
  split; [exact Himpl|].
  destruct (Hcall (world_with [])) as [[[_ ->]|[Hclash _]] _].
  - reflexivity.
  - exfalso. apply Exists_exists in Hclash as (k & _ & [v Hk]).
    rewrite lookup_empty in Hk. discriminate Hk.
Defined.

(** C8. The constructor never calls [createMixedSystem].  It returns only when
    the atoms have been resolved and then validated against the constraints of
    the system; it raises what resolution raises (before anything else is
    done) or what validation raises (before the potential is made), and then
    there is no object to ask for a mixed system.  A mixed system made through
    the returned object is made from the validated atoms. *)
Theorem mixed_system_not_created_before_validation
    sel system topology nnpify_id nnpify_type nnp_potential implementation
    interpolate cms_kw (w : world) :
  let run :=
    MixedSystemConstructor__init__ sel system topology nnpify_id nnpify_type
      nnp_potential implementation interpolate cms_kw w in
  mixed_systems_created (trace run.2) = mixed_systems_created (trace w)
  ∧ (returns run.1
     ↔ ∃ atoms,
         get_atoms_from_resname sel topology nnpify_id nnpify_type = Ok atoms
         ∧ assert_no_residue_constraints system atoms = Ok tt)
  ∧ match run.1 with
    | Ok self =>
        get_atoms_from_resname sel topology nnpify_id nnpify_type
        = Ok (_atom_indices self)
        ∧ assert_no_residue_constraints system (_atom_indices self) = Ok tt
        ∧ trace run.2
          = trace w ++ [EvPrint (_atom_indices self); EvMLPotential nnp_potential]
        ∧ ∀ w2,
            match mixed_system self w2 with
            | (Ok made, w3) =>
                cms_atoms (made_with made) = _atom_indices self
                ∧ cms_system (made_with made) = system
                ∧ trace w3 = trace w2 ++ [EvCreateMixedSystem (made_with made)]
            | (Raise _, w3) => w3 = w2
            end
    | Raise e =>
        (get_atoms_from_resname sel topology nnpify_id nnpify_type = Raise e
         ∧ run.2 = w)
        ∨ ∃ atoms,
            get_atoms_from_resname sel topology nnpify_id nnpify_type = Ok atoms
            ∧ assert_no_residue_constraints system atoms = Raise e
            ∧ trace run.2 = trace w ++ [EvPrint atoms]
    end.
Proof.
  intros run. unfold run. rewrite MixedSystemConstructor__init__run.
  unfold returns.
  destruct (get_atoms_from_resname _ _ _ _) as [atoms|e] eqn:Hatoms; simpl.
  2:{ split; [done|]. split; [|by left].
      split; [by intros [? [=]]|by intros (? & [=] & _)]. }
  destruct (assert_no_residue_constraints _ _) as [[]|e] eqn:Hvalid; simpl.
  - split; [by rewrite mixed_systems_created_app, app_nil_r|].
    split; [split; [by exists atoms|by eexists]|].
    split; [done|]. split; [done|]. split; [done|]. intros w2.
    match goal with
    | |- context [mixed_system ?o w2] =>
        destruct (mixed_system_run o w2) as [[_ ->]|[_ ->]]; done
    end.
  - split; [by rewrite mixed_systems_created_app, app_nil_r|].
    split; [|right; by exists atoms].
    split; [by intros [? [=]]|]. intros (atoms' & [= <-] & Hok).
    by rewrite Hvalid in Hok.
Qed.

(** ** Worked examples *)

Example water_constraints_leave_ligand_free :
  assert_no_residue_constraints system_rigid_water [3; 4; 5] = Ok tt.
Proof. vm_compute. reflexivity. Qed.

Example ligand_constraint_is_rejected :
  assert_no_residue_constraints system_rigid_lig [3; 4; 5]
  = Raise (Exception {[3; 4]}).
Proof. vm_compute. reflexivity. Qed.

Example ligand_resolved_by_resname :
  get_atoms_from_resname select_2_1 topology_hoh_lig (Some "LIG") "resname"
  = Ok [3; 4; 5].
Proof. vm_compute. reflexivity. Qed.

Example missing_residue_is_rejected :
  get_atoms_from_resname select_2_1 topology_hoh_lig (Some "MOL") "resname"
  = Raise (AssertionError (ResidueCount (Some "MOL") 0)).
Proof. vm_compute. reflexivity. Qed.

Example constructor_stops_at_constrained_ligand :
  let run :=
    MixedSystemConstructor__init__ select_3_5 system_rigid_lig topology_hoh_lig
      (Some "LIG") "resname" (Some "ani2x") (Some "nnpops") true ∅
      (world_with []) in
  run.1 = Raise (Exception {[3; 4]}) ∧ trace run.2 = [EvPrint [3; 4; 5]].
Proof. split; vm_compute; reflexivity. Qed.

Example duplicate_sampler_keyword_is_a_TypeError :
  (sampler
     (RepexConstructor__init__ (VObj 1) (VObj 2) (VInt 4) (VObj 3) (VInt 5)
        (VInt 1000) (VStr "minimise") false false default_storage_kwargs
        (Some (VObj 10)) (Some default_mcmc_moves_kwargs)
        (Some {[ "mcmc_moves" := VObj 10 ]}) ∅)
     (world_with [])).1
  = Raise (TypeError "got multiple values for keyword argument").
Proof. vm_compute. reflexivity. Qed.

(** * Further properties of the module *)

(** ** Constraint validation *)

(** Both outcomes of the validation, with what the exception carries. *)
Lemma validation_outcome system (atoms : list Z) :
  (assert_no_residue_constraints system atoms = Ok tt
   ∧ ∀ a, constraint_endpoint system a → a ∉ atoms)
  ∨ (∃ I : gset Z,
       assert_no_residue_constraints system atoms = Raise (Exception I)
       ∧ I ≠ ∅
       ∧ ∀ a, a ∈ I ↔ constraint_endpoint system a ∧ a ∈ atoms).
Proof.
  unfold assert_no_residue_constraints.
  set (I := (list_to_set (collect_constraints system) ∩ list_to_set atoms
             : gset Z)).
  assert (Helem : ∀ a, a ∈ I ↔ constraint_endpoint system a ∧ a ∈ atoms).
  { intros a. unfold I.
    by rewrite elem_of_intersection, !elem_of_list_to_set,
         elem_of_collect_constraints. }
  destruct (decide (I = ∅)) as [He|Hne].
  - left. split; [done|]. intros a Hc Ha.
    assert (a ∈ I) as Hin by by apply Helem.
    rewrite He in Hin. by apply not_elem_of_empty in Hin.
  - right. by exists I.
Qed.

(** X1. When the validation raises, the exception carries exactly the
    selected atoms that are end points of a constraint, and at least one. *)
Theorem validation_reports_the_constrained_atoms system (atoms : list Z) e
    (Hraise : assert_no_residue_constraints system atoms = Raise e) :
  ∃ I : gset Z,
    e = Exception I
    ∧ (∃ a, a ∈ I)
    ∧ ∀ a, a ∈ I ↔ constraint_endpoint system a ∧ a ∈ atoms.
Proof.
  destruct (validation_outcome system atoms)
    as [[Hok _]|(I & HI & Hne & Helem)].
  - by rewrite Hok in Hraise.
  - rewrite HI in Hraise. injection Hraise as <-. exists I.
    split; [done|]. split; [|done]. by apply set_choose_L.
Qed.

Lemma validation_reports_the_constrained_atoms_witness :
  ∃ I : gset Z,
    Exception {[3; 4]} = Exception I
    ∧ (∃ a, a ∈ I)
    ∧ ∀ a, a ∈ I ↔ constraint_endpoint system_rigid_lig a ∧ a ∈ [3; 4; 5].
Proof.
  apply (validation_reports_the_constrained_atoms system_rigid_lig [3; 4; 5]).
  vm_compute. reflexivity.
Defined.

(** X2. Validation that succeeds keeps succeeding when atoms are dropped
    from the selection (in any order, with or without repeats) and when
    constraints are dropped from the system. *)
Theorem validation_survives_smaller_inputs system system'
    (atoms atoms' : list Z)
    (Hatoms : atoms' ⊆ atoms)
    (Hconstraints : sys_constraints system' ⊆ sys_constraints system)
    (Hok : assert_no_residue_constraints system atoms = Ok tt) :
  assert_no_residue_constraints system' atoms' = Ok tt.
Proof.
  destruct (validation_outcome system atoms)
    as [[_ Hfree]|(I & HI & _)]; [|by rewrite HI in Hok].
  destruct (validation_outcome system' atoms')
    as [[Hok' _]|(I & _ & Hne & Helem)]; [done|].
  apply set_choose_L in Hne as [a Ha]. apply Helem in Ha as [(c & Hc & Hend) Ha].
  exfalso. apply (Hfree a); [|by apply Hatoms].
  exists c. split; [by apply Hconstraints|done].
Qed.

Lemma validation_survives_smaller_inputs_witness :
  assert_no_residue_constraints
    {| sys_id := 3;
       sys_constraints := [ {| p1 := 0; p2 := 2; distance := VObj 20 |} ] |}
    [5; 3; 5]
  = Ok tt.
Proof.
  apply (validation_survives_smaller_inputs system_rigid_water _ [3; 4; 5]).
  - apply (bool_decide_unpack _). vm_compute. exact I.
  - apply (bool_decide_unpack _). vm_compute. exact I.
  - vm_compute. reflexivity.
Defined.

(** X3. A system without constraints accepts every selection, and every
    system accepts the empty selection. *)
Theorem validation_of_empty_inputs sid system (atoms : list Z) :
  assert_no_residue_constraints {| sys_id := sid; sys_constraints := [] |} atoms
  = Ok tt
  ∧ assert_no_residue_constraints system [] = Ok tt.
Proof.
  split.
  - destruct (validation_outcome {| sys_id := sid; sys_constraints := [] |} atoms)
      as [[Hok _]|(I & _ & Hne & Helem)]; [done|].
    apply set_choose_L in Hne as [a Ha].
    apply Helem in Ha as [(c & Hc & _) _]. by apply elem_of_nil in Hc.
  - destruct (validation_outcome system [])
      as [[Hok _]|(I & _ & Hne & Helem)]; [done|].
    apply set_choose_L in Hne as [a Ha].
    apply Helem in Ha as [_ Ha]. by apply elem_of_nil in Ha.
Qed.

(** ** Atom selection *)

(** X4. In "resname" mode, when the number of residues with the requested
    name is not one (none, or several), the [AssertionError] reports the
    requested name and that number. *)
Theorem resname_resolution_reports_the_count sel topology nnpify_id
    (Hcount : length (residues_named topology nnpify_id) ≠ 1%nat) :
  get_atoms_from_resname sel topology nnpify_id "resname"
  = Raise (AssertionError
             (ResidueCount nnpify_id
                (length (residues_named topology nnpify_id)))).
Proof.
  rewrite get_atoms_from_resname_resname.
  by destruct (residues_named topology nnpify_id) as [|r [|r' l]].
Qed.

Lemma resname_resolution_reports_the_count_witness :
  get_atoms_from_resname select_3_5
    {| top_chains := chain_lig_3_5 ++ chain_lig_2_1 |} (Some "LIG") "resname"
  = Raise (AssertionError (ResidueCount (Some "LIG") 2)).
Proof.
  apply (resname_resolution_reports_the_count select_3_5
           {| top_chains := chain_lig_3_5 ++ chain_lig_2_1 |} (Some "LIG")).
  vm_compute. discriminate.
Defined.

Lemma residues_named_None topology : residues_named topology None = [].
Proof.
  unfold residues_named. induction (residues topology) as [|r rs IH]; [done|].
  by rewrite filter_cons_False.
Qed.

(** X5. With [nnpify_id] left at its default [None], resolution by residue
    name finds no residue in any topology, so the constructor called with its
    default [nnpify_id] and [nnpify_type] raises the [AssertionError] before
    it prints, validates or makes the potential. *)
Theorem default_nnpify_id_is_always_rejected
    sel system topology nnp_potential implementation interpolate cms_kw w :
  get_atoms_from_resname sel topology None "resname"
  = Raise (AssertionError (ResidueCount None 0))
  ∧ MixedSystemConstructor__init__ sel system topology None "resname"
      nnp_potential implementation interpolate cms_kw w
    = (Raise (AssertionError (ResidueCount None 0)), w).
Proof.
  assert (Hres : get_atoms_from_resname sel topology None "resname"
                 = Raise (AssertionError (ResidueCount None 0))).
  { by rewrite get_atoms_from_resname_resname, residues_named_None. }
  split; [done|]. by rewrite MixedSystemConstructor__init__run, Hres.
Qed.

Lemma residues_named_app cs1 cs2 nnpify_id :
  residues_named {| top_chains := cs1 ++ cs2 |} nnpify_id
  = residues_named {| top_chains := cs1 |} nnpify_id
    ++ residues_named {| top_chains := cs2 |} nnpify_id.
Proof.
  unfold residues_named, residues. simpl.
  by rewrite fmap_app, join_app, filter_app.
Qed.

(** X6. The requested name must be unique in the whole topology, not per
    chain: when it occurs in each of two groups of chains, resolution over
    the chains together raises, reporting at least two residues. *)
Theorem resname_must_be_unique_across_chains sel cs1 cs2 nnpify_id
    (Hfirst : residues_named {| top_chains := cs1 |} nnpify_id ≠ [])
    (Hsecond : residues_named {| top_chains := cs2 |} nnpify_id ≠ []) :
  ∃ found,
    (2 ≤ found)%nat
    ∧ get_atoms_from_resname sel {| top_chains := cs1 ++ cs2 |} nnpify_id
        "resname"
      = Raise (AssertionError (ResidueCount nnpify_id found)).
Proof.
  exists (length (residues_named {| top_chains := cs1 ++ cs2 |} nnpify_id)).
  assert (Hlen : (2 ≤ length (residues_named {| top_chains := cs1 ++ cs2 |}
                                nnpify_id))%nat).
  { rewrite residues_named_app, length_app.
    destruct (residues_named {| top_chains := cs1 |} nnpify_id); [done|].
    destruct (residues_named {| top_chains := cs2 |} nnpify_id); [done|].
    simpl. lia. }
  split; [done|]. apply resname_resolution_reports_the_count. lia.
Qed.

Lemma resname_must_be_unique_across_chains_witness :
  ∃ found,
    (2 ≤ found)%nat
    ∧ get_atoms_from_resname select_3_5
        {| top_chains := chain_lig_3_5 ++ chain_lig_2_1 |} (Some "LIG")
        "resname"
      = Raise (AssertionError (ResidueCount (Some "LIG") found)).
Proof.
  apply (resname_must_be_unique_across_chains select_3_5
           chain_lig_3_5 chain_lig_2_1 (Some "LIG"));
    vm_compute; discriminate.
Defined.

(** X7. In "chain" mode an exception of the selection engine passes through
    unchanged: [get_atoms_from_resname] raises it, and so does the
    constructor, having printed, validated and made nothing. *)
Theorem selection_failure_propagates
    sel system topology nnpify_id nnp_potential implementation interpolate
    cms_kw w e
    (Hfail : sel topology ("chainid == " +:+ py_str nnpify_id) = Raise e) :
  get_atoms_from_resname sel topology nnpify_id "chain" = Raise e
  ∧ MixedSystemConstructor__init__ sel system topology nnpify_id "chain"
      nnp_potential implementation interpolate cms_kw w
    = (Raise e, w).
Proof.
  assert (Hres : get_atoms_from_resname sel topology nnpify_id "chain" = Raise e)
    by by rewrite get_atoms_from_resname_chain.
  split; [done|]. by rewrite MixedSystemConstructor__init__run, Hres.
Qed.

Lemma selection_failure_propagates_witness :
  get_atoms_from_resname select_fails topology_hoh_lig (Some "1") "chain"
  = Raise (ExternalError "ValueError")
  ∧ MixedSystemConstructor__init__ select_fails system_rigid_water
      topology_hoh_lig (Some "1") "chain" (Some "ani2x") (Some "nnpops") true ∅
      (world_with [])
    = (Raise (ExternalError "ValueError"), world_with []).
Proof.
  apply (selection_failure_propagates select_fails system_rigid_water
           topology_hoh_lig (Some "1")).
  reflexivity.
Defined.

(** ** MixedSystemConstructor *)

(** X8. An object the constructor returns holds atoms none of which is an end
    point of a constraint of the system it holds; they are in ascending order
    unless they come from the selection engine ("chain" mode). *)
Theorem constructed_atoms_are_unconstrained
    sel system topology nnpify_id nnpify_type nnp_potential implementation
    interpolate cms_kw w self w1
    (Hinit : MixedSystemConstructor__init__ sel system topology nnpify_id
               nnpify_type nnp_potential implementation interpolate cms_kw w
             = (Ok self, w1)) :
  (∀ a, a ∈ _atom_indices self → ¬ constraint_endpoint (_system self) a)
  ∧ (nnpify_type = "chain" ∨ ascending (_atom_indices self)).
Proof.
  rewrite MixedSystemConstructor__init__run in Hinit.
  destruct (get_atoms_from_resname _ _ _ _) as [atoms|e] eqn:Hatoms; [|done].
  destruct (validation_outcome system atoms)
    as [[Hok Hfree]|(I & HI & _)]; rewrite ?Hok, ?HI in Hinit; [|done].
  injection Hinit as <- <-. simpl. split.
  - intros a Ha Hend. by apply (Hfree a).
  - unfold get_atoms_from_resname in Hatoms.
    destruct (decide (nnpify_type = "chain")); [by left|]. right.
    repeat case_match; simplify_eq.
    by apply sorted_fixpoint_iff_ascending.
Qed.

Lemma constructed_atoms_are_unconstrained_witness :
  (∀ a, a ∈ [3; 4; 5] → ¬ constraint_endpoint system_rigid_water a)
  ∧ ("resname" = "chain" ∨ ascending [3; 4; 5]).
Proof.
  apply (constructed_atoms_are_unconstrained select_2_1 system_rigid_water
           topology_hoh_lig (Some "LIG") "resname" (Some "ani2x")
           (Some "nnpops") true ∅ (world_with []) example_mixed_constructor
           {| files := ∅; trace := [EvPrint [3; 4; 5];
                                    EvMLPotential (Some "ani2x")] |}).
  vm_compute. reflexivity.
Defined.

(** X9. The [mixed_system] property keeps no result: every access calls
    [createMixedSystem] again, with the same arguments, and returns the same
    description. *)
Theorem mixed_system_is_rebuilt_on_every_access self w made w1
    (Hfirst : mixed_system self w = (Ok made, w1)) :
  mixed_system self w1
  = (Ok made,
     {| files := files w;
        trace := trace w ++ [EvCreateMixedSystem (made_with made);
                             EvCreateMixedSystem (made_with made)] |}).
Proof.
  destruct (mixed_system_run self w) as [[Hfree Hrun]|[_ Hrun]];
    rewrite Hrun in Hfirst; [|done].
  injection Hfirst as <- <-.
  destruct (mixed_system_run self
              {| files := files w;
                 trace := trace w
                            ++ [EvCreateMixedSystem (createMixedSystem_call self)] |})
    as [[_ ->]|[Hclash _]].
  - simpl. by rewrite <- app_assoc.
  - exfalso. apply Exists_exists in Hclash as (k & Hk & Hsome).
    rewrite Forall_forall in Hfree. rewrite (Hfree k Hk) in Hsome.
    by destruct Hsome.
Qed.

Lemma mixed_system_is_rebuilt_on_every_access_witness :
  mixed_systems_created
    (trace (mixed_system example_mixed_constructor
              (mixed_system example_mixed_constructor (world_with [])).2).2)
  = [createMixedSystem_call example_mixed_constructor;
     createMixedSystem_call example_mixed_constructor].
Proof.
  rewrite (mixed_system_is_rebuilt_on_every_access example_mixed_constructor
             (world_with [])
             {| made_with := createMixedSystem_call example_mixed_constructor |}
             (mixed_system example_mixed_constructor (world_with [])).2).
  - reflexivity.
  - reflexivity.
Defined.

(** ** The sampler property *)




(** X11. Without the key "storage" in [storage_kwargs], [sampler] raises
    [KeyError] for that key once the platform, the context cache and the move
    have been made: no file is touched, nothing is restored or constructed. *)
Theorem sampler_without_storage_key_raises_KeyError self cls mkw w
    (Hkey : _storage_kwargs self !! "storage" = None)
    (Hclass : _mcmc_moves self = Some cls)
    (Hkwargs : _mcmc_moves_kwargs self = Some mkw) :
  sampler self w
  = (Raise (KeyError "storage"),
     {| files := files w;
        trace := trace w
                   ++ prelude_events
                        {| move_class := cls; move_kwargs := mkw |} |}).
Proof.
  unfold sampler. run. rewrite Hkwargs, Hclass, Hkey. simpl.
  by rewrite <- !app_assoc.
Qed.

Lemma sampler_without_storage_key_raises_KeyError_witness :
  (sampler (example_constructor_with false false
              {[ "checkpoint_interval" := VInt 10 ]}
              (Some default_mcmc_moves_kwargs)
              (Some default_replica_exchange_sampler_kwargs) ∅)
     (world_with ["repex.nc"])).1
  = Raise (KeyError "storage").
Proof.
  rewrite (sampler_without_storage_key_raises_KeyError _ (VObj 10)
             default_mcmc_moves_kwargs); reflexivity.
Defined.

(** X12. The move is made before the storage file is looked at: when the move
    class or its dictionary is [None], [sampler] raises a [TypeError] having
    only asked for the platform and made the context cache.  The storage file
    is neither removed nor restored from, whatever [restart] says. *)
Theorem sampler_without_move_raises_before_touching_storage self w
    (Hnone : _mcmc_moves_kwargs self = None ∨ _mcmc_moves self = None) :
  ∃ msg,
    sampler self w
    = (Raise (TypeError msg),
       {| files := files w;
          trace := trace w ++ [EvGetFastestPlatform "mixed";
                               EvContextCache the_context_cache] |}).
Proof.
  unfold sampler. run. unfold star_star.
  destruct (_mcmc_moves_kwargs self) as [mkw|] eqn:Hk; simpl.
  - destruct Hnone as [|Hc]; [done|]. rewrite Hc. simpl.
    eexists. by rewrite <- !app_assoc.
  - eexists. by rewrite <- !app_assoc.
Qed.

Lemma sampler_without_move_raises_before_touching_storage_witness :
  ∃ msg,
    sampler (example_constructor_with false false default_storage_kwargs None
               (Some default_replica_exchange_sampler_kwargs) ∅)
      (world_with ["repex.nc"])
    = (Raise (TypeError msg),
       {| files := files (world_with ["repex.nc"]);
          trace := trace (world_with ["repex.nc"])
                     ++ [EvGetFastestPlatform "mixed";
                         EvContextCache the_context_cache] |}).
Proof.
  apply (sampler_without_move_raises_before_touching_storage
           (example_constructor_with false false default_storage_kwargs None
              (Some default_replica_exchange_sampler_kwargs) ∅)).
  left. reflexivity.
Defined.

(** X13. The storage file is removed before the sampler is constructed: with
    the file on disk and [restart] unset, a sampler dictionary that is [None]
    or holds the key mcmc_moves makes [sampler] raise a [TypeError] after the
    file is gone; no sampler has been constructed. *)
Theorem sampler_removes_storage_before_a_failing_build self storage m w
    (Hconf : configured self storage m) (Hfile : storage ∈ files w)
    (Hrestart : restart self = false)
    (Hbad : _replica_exchange_sampler_kwargs self = None
            ∨ ∃ kw, _replica_exchange_sampler_kwargs self = Some kw
                    ∧ is_Some (kw !! "mcmc_moves")) :
  ∃ msg,
    sampler self w
    = (Raise (TypeError msg),
       {| files := files w ∖ {[storage]};
          trace := trace w ++ prelude_events m ++ removal_events storage
                     ++ [EvLoggingInfo "Starting Repex sampling from scratch"] |}).
Proof.
  destruct Hconf as (Hs & Hc & Hk). unfold sampler. run.
  rewrite Hk, Hc, Hs, Hrestart. simpl.
  rewrite bool_decide_eq_true_2 by done. simpl.
  rewrite decide_True by done. simpl.
  rewrite bool_decide_eq_false_2 by apply removed_file_is_gone. simpl.
  unfold star_star. destruct Hbad as [->|(kw & -> & Hsome)].
  - eexists. destruct m. by rewrite <- !app_assoc.
  - rewrite decide_True by (by constructor).
    eexists. destruct m. by rewrite <- !app_assoc.
Qed.

Lemma sampler_removes_storage_before_a_failing_build_witness :
  ∃ msg,
    sampler (example_constructor_with false false default_storage_kwargs
               (Some default_mcmc_moves_kwargs)
               (Some {[ "mcmc_moves" := VObj 10 ]}) ∅)
      (world_with ["repex.nc"])
    = (Raise (TypeError msg),
       {| files := files (world_with ["repex.nc"]) ∖ {[ "repex.nc" ]};
          trace := trace (world_with ["repex.nc"])
                     ++ prelude_events example_move
                     ++ removal_events "repex.nc"
                     ++ [EvLoggingInfo "Starting Repex sampling from scratch"] |}).
Proof.
  apply (sampler_removes_storage_before_a_failing_build
           (example_constructor_with false false default_storage_kwargs
              (Some default_mcmc_moves_kwargs)
              (Some {[ "mcmc_moves" := VObj 10 ]}) ∅)
           "repex.nc" example_move).
  - repeat split.
  - apply example_file_on_disk.
  - reflexivity.
  - right. eexists. split; [reflexivity|]. eexists. reflexivity.
Defined.

(** X14. When [sampler] builds rather than restores (the storage file is not
    on disk, or [restart] is unset), an extra keyword argument of the
    constructor that repeats a keyword of the set-up call is found out only at
    that call: the storage file, if it was there, has been removed and the
    sampler has been constructed by then, and [sampler] raises the [TypeError]
    without setting the sampler up. *)
Theorem sampler_extra_keyword_clash_raises_after_construction
    self storage m kw k w
    (Hconf : configured self storage m)
    (Hkw : _replica_exchange_sampler_kwargs self = Some kw)
    (Hfree : kw !! "mcmc_moves" = None)
    (Hk : k ∈ setup_keywords) (Hclash : is_Some (_extra_kwargs self !! k))
    (Hbuilds : storage ∉ files w ∨ restart self = false) :
  sampler self w
  = (Raise (TypeError "got multiple values for keyword argument"),
     {| files := if decide (storage ∈ files w)
                 then files w ∖ {[storage]} else files w;
        trace := trace w ++ prelude_events m
                   ++ (if decide (storage ∈ files w)
                       then removal_events storage else [])
                   ++ [EvLoggingInfo "Starting Repex sampling from scratch";
                       EvNNPRepexSampler m kw] |}).
Proof.
  destruct Hconf as (Hs & Hc & Hk').
  assert (Hstar : star_star setup_keywords (Some (_extra_kwargs self))
                  = Raise (TypeError "got multiple values for keyword argument")).
  { unfold star_star. rewrite decide_True; [done|].
    apply Exists_exists. by exists k. }
  unfold sampler. run. rewrite Hk', Hc, Hs, Hkw. simpl.
  destruct (decide (storage ∈ files w)) as [Hin|Hout].
  - destruct Hbuilds as [|Hr]; [done|]. rewrite Hr.
    rewrite bool_decide_eq_true_2 by done. simpl.
    rewrite decide_True by done. simpl.
    rewrite bool_decide_eq_false_2 by apply removed_file_is_gone. simpl.
    rewrite (star_star_Ok ["mcmc_moves"] kw) by (by constructor).
    destruct m, (_decouple self); simpl; run; rewrite Hstar; simpl;
      by rewrite <- !app_assoc.
  - repeat (rewrite bool_decide_eq_false_2 by done; simpl).
    rewrite (star_star_Ok ["mcmc_moves"] kw) by (by constructor).
    destruct m, (_decouple self); simpl; run; rewrite Hstar; simpl;
      by rewrite <- !app_assoc.
Qed.

Lemma sampler_extra_keyword_clash_raises_after_construction_witness :
  (sampler (example_constructor_with true false default_storage_kwargs
              (Some default_mcmc_moves_kwargs)
              (Some default_replica_exchange_sampler_kwargs)
              {[ "init_positions" := VObj 2 ]})
     (world_with [])).1
  = Raise (TypeError "got multiple values for keyword argument")
  ∧ (sampler (example_constructor_with false false default_storage_kwargs
                (Some default_mcmc_moves_kwargs)
                (Some default_replica_exchange_sampler_kwargs)
                {[ "init_positions" := VObj 2 ]})
       (world_with ["repex.nc"])).1
    = Raise (TypeError "got multiple values for keyword argument").
Proof.
  split.
  - rewrite (sampler_extra_keyword_clash_raises_after_construction
               _ "repex.nc" example_move
               default_replica_exchange_sampler_kwargs "init_positions").
    + reflexivity.
    + repeat split.
    + reflexivity.
    + reflexivity.
    + apply (bool_decide_unpack _). vm_compute. exact I.
    + eexists. reflexivity.
    + left. apply example_file_not_on_disk.
  - rewrite (sampler_extra_keyword_clash_raises_after_construction
               _ "repex.nc" example_move
               default_replica_exchange_sampler_kwargs "init_positions").
    + reflexivity.
    + repeat split.
    + reflexivity.
    + reflexivity.
    + apply (bool_decide_unpack _). vm_compute. exact I.
    + eexists. reflexivity.
    + right. reflexivity.
Defined.

(** X15. Only a freshly constructed sampler is given the context cache: both
    its energy and its sampler context cache are the one cache made for the
    fastest mixed-precision platform (no capacity, no time to live).  A
    sampler restored from storage is returned as [from_storage] gave it, with
    neither cache assigned and no set-up call. *)
Theorem sampler_context_caches self w s w'
    (Hrun : sampler self w = (Ok s, w')) :
  match origin s with
  | Constructed _ _ =>
      energy_context_cache s = Some the_context_cache
      ∧ sampler_context_cache s = Some the_context_cache
      ∧ EvContextCache the_context_cache ∈ trace w'
  | FromStorage _ =>
      energy_context_cache s = None
      ∧ sampler_context_cache s = None
      ∧ setup_call s = None
  end.
Proof.
  apply sampler_returns_inv in Hrun
    as (storage & m & _ & [(_ & _ & -> & _)|(kw & _ & -> & Hw')]); [done|].
  simpl. split; [done|]. split; [done|].
  assert (Hin : EvContextCache the_context_cache ∈ prelude_events m).
  { apply elem_of_cons. right. apply elem_of_cons. by left. }
  destruct Hw' as [(_ & _ & ->)|(_ & ->)];
    unfold after_remove_and_build, after_build; cbn [trace];
    apply elem_of_app; right; apply elem_of_app; by left.
Qed.

Lemma sampler_context_caches_witness :
  energy_context_cache
    (fresh_sampler (example_constructor true false) example_move
       default_replica_exchange_sampler_kwargs) = Some the_context_cache
  ∧ sampler_context_cache
      (fresh_sampler (example_constructor true false) example_move
         default_replica_exchange_sampler_kwargs) = Some the_context_cache
  ∧ EvContextCache the_context_cache
    ∈ trace (after_build (world_with []) (example_constructor true false)
               example_move default_replica_exchange_sampler_kwargs).
Proof.
  apply (sampler_context_caches (example_constructor true false)
           (world_with [])
           (fresh_sampler (example_constructor true false) example_move
              default_replica_exchange_sampler_kwargs)
           (after_build (world_with []) (example_constructor true false)
              example_move default_replica_exchange_sampler_kwargs)).
  apply (sampler_builds _ "repex.nc").
  - apply example_configured.
  - apply example_configured_for_build.
  - apply example_file_not_on_disk.
Defined.

(** X16. The set-up call of a fresh sampler receives the constructor's
    arguments under the names of the set-up call: [initial_positions] as
    [init_positions], [intervals_per_lambda_window] as
    [setup_equilibration_intervals], [steps_per_equilibration_interval] as
    [steps_per_setup_equilibration_interval], the others under their own
    names, and the extra keyword arguments as they were given. *)
Theorem setup_receives_the_constructor_arguments
    (mixed_system_obj initial_positions n_states_arg temperature_arg
     intervals_per_lambda_window steps_per_equilibration_interval
     equilibration_protocol_arg : value)
    (restart decouple : bool) (storage_kw : kwargs)
    (mcmc_moves : option value) (mcmc_moves_kw sampler_kw : option kwargs)
    (extra : kwargs) (w w' : world) (s : NNPRepexSampler)
    (kind : setup_kind) (a : setup_args) :
  let self :=
    RepexConstructor__init__ mixed_system_obj initial_positions n_states_arg
      temperature_arg intervals_per_lambda_window
      steps_per_equilibration_interval equilibration_protocol_arg restart
      decouple storage_kw mcmc_moves mcmc_moves_kw sampler_kw extra in
  sampler self w = (Ok s, w') →
  setup_call s = Some (kind, a) →
  kind = (if decouple then SetupDecouple else Setup)
  ∧ setup_event kind a ∈ trace w'
  ∧ n_states a = n_states_arg
  ∧ mixed_system_arg a = mixed_system_obj
  ∧ init_positions a = initial_positions
  ∧ temperature a = temperature_arg
  ∧ setup_equilibration_intervals a = intervals_per_lambda_window
  ∧ equilibration_protocol a = equilibration_protocol_arg
  ∧ steps_per_setup_equilibration_interval a = steps_per_equilibration_interval
  ∧ setup_kwargs a = extra.
Proof.
  intros self Hrun Hcall.
  apply sampler_returns_inv in Hrun
    as (storage & m & _ & [(_ & _ & -> & _)|(kw & _ & -> & Hw')]); [done|].
  injection Hcall as <- <-. split; [done|]. split; [|done].
  assert (Hin : setup_event (setup_kind_of self) (setup_args_of self)
                ∈ fresh_events self m kw).
  { apply elem_of_cons. right. apply elem_of_cons. right.
    apply elem_of_cons. by left. }
  destruct Hw' as [(_ & _ & ->)|(_ & ->)];
    unfold after_remove_and_build, after_build; cbn [trace];
    repeat (apply elem_of_app; right); done.
Qed.

Lemma setup_receives_the_constructor_arguments_witness :
  SetupDecouple = SetupDecouple
  ∧ setup_event SetupDecouple (setup_args_of (example_constructor true true))
    ∈ trace (after_build (world_with []) (example_constructor true true)
               example_move default_replica_exchange_sampler_kwargs)
  ∧ n_states (setup_args_of (example_constructor true true)) = VInt 4
  ∧ mixed_system_arg (setup_args_of (example_constructor true true)) = VObj 1
  ∧ init_positions (setup_args_of (example_constructor true true)) = VObj 2
  ∧ temperature (setup_args_of (example_constructor true true)) = VObj 3
  ∧ setup_equilibration_intervals
      (setup_args_of (example_constructor true true)) = VInt 5
  ∧ equilibration_protocol (setup_args_of (example_constructor true true))
    = VStr "minimise"
  ∧ steps_per_setup_equilibration_interval
      (setup_args_of (example_constructor true true)) = VInt 1000
  ∧ setup_kwargs (setup_args_of (example_constructor true true)) = ∅.
Proof.
  apply (setup_receives_the_constructor_arguments
           (VObj 1) (VObj 2) (VInt 4) (VObj 3) (VInt 5) (VInt 1000)
           (VStr "minimise") true true default_storage_kwargs
           (Some (VObj 10)) (Some default_mcmc_moves_kwargs)
           (Some default_replica_exchange_sampler_kwargs) ∅
           (world_with [])
           (after_build (world_with []) (example_constructor true true)
              example_move default_replica_exchange_sampler_kwargs)
           (fresh_sampler (example_constructor true true) example_move
              default_replica_exchange_sampler_kwargs)).
  - apply (sampler_builds (example_constructor true true) "repex.nc").
    + apply example_configured.
    + apply example_configured_for_build.
    + apply example_file_not_on_disk.
  - reflexivity.
Defined.

(** X17. With the storage path given as a string, [sampler] returns only
    when the move class and its dictionary were given.  What it returns was
    restored from storage only if the file was on disk and [restart] set, and
    then from that very path; it was constructed only if the file was not on
    disk or [restart] was unset, and then from the move made of the given
    class and dictionary, with a sampler dictionary without the key
    mcmc_moves and extra keywords that repeat no keyword of the set-up
    call. *)
Theorem sampler_returns_only_when_configured self storage w s w'
    (Hstorage : _storage_kwargs self !! "storage" = Some (VStr storage))
    (Hrun : sampler self w = (Ok s, w')) :
  match origin s with
  | FromStorage path =>
      path = storage ∧ storage ∈ files w ∧ restart self = true
      ∧ is_Some (_mcmc_moves self) ∧ is_Some (_mcmc_moves_kwargs self)
  | Constructed m kw =>
      (storage ∉ files w ∨ restart self = false)
      ∧ _mcmc_moves self = Some (move_class m)
      ∧ _mcmc_moves_kwargs self = Some (move_kwargs m)
      ∧ configured_for_build self kw
  end.
Proof.
  apply sampler_returns_inv in Hrun
    as (storage' & m & (Hs & Hc & Hk)
        & [(Hin & Hr & -> & _)|(kw & Hbuild & -> & Hw')]);
    rewrite Hstorage in Hs; injection Hs as <-; simpl.
  - split; [done|]. split; [done|]. split; [done|]. split; by eexists.
  - split; [|done].
    destruct Hw' as [(_ & Hr & _)|(Hout & _)]; [by right|by left].
Qed.

Lemma sampler_returns_only_when_configured_witness :
  "repex.nc" = "repex.nc"
  ∧ "repex.nc" ∈ files (world_with ["repex.nc"])
  ∧ restart (example_constructor true false) = true
  ∧ is_Some (_mcmc_moves (example_constructor true false))
  ∧ is_Some (_mcmc_moves_kwargs (example_constructor true false)).
Proof.
  apply (sampler_returns_only_when_configured
           (example_constructor true false) "repex.nc"
           (world_with ["repex.nc"]) (restored_sampler "repex.nc")
           (after_restore (world_with ["repex.nc"]) "repex.nc" example_move)).
  - reflexivity.
  - apply sampler_restores.
    + apply example_configured.
    + apply example_file_on_disk.
    + reflexivity.
Defined.
